(** * express-boilerplate-ts: authentication and authorization core

    A shallow embedding of the services, middlewares and route gates of the
    repository, and the properties of the specification proved about them.

    - [Js]            the JavaScript string and truthiness primitives the code relies on
    - constants       [httpStatus], [Permission], [Role], [RolePermissions]
    - [Externals]     the libraries the code calls but does not contain
                      (jsonwebtoken, bcrypt, google-auth-library, process.env)
    - store           the two Mongoose collections, the wall clock, ObjectId supply
    - [M]             the effect of an async service function: store round trips,
                      exceptions, log lines, interleaving with other requests
    - services, controllers, passport strategies, middlewares, the user routes
    - theorems *)

From Stdlib Require Import ZArith List String Ascii Bool Lia.
From stdpp Require Import base option list strings gmap.

Open Scope Z_scope.

(** ** JavaScript primitives (strings restricted to their ASCII fragment) *)

Module Js.

Definition lower_char (c : ascii) : ascii :=
  let n := nat_of_ascii c in
  if ((65 <=? n) && (n <=? 90))%nat then ascii_of_nat (n + 32) else c.

(** [String.prototype.toLowerCase] *)
Fixpoint toLowerCase (s : string) : string :=
  match s with
  | EmptyString => EmptyString
  | String c r => String (lower_char c) (toLowerCase r)
  end.

(** The class [\s] of regular expressions, which is also what [trim] strips. *)
Definition is_space (c : ascii) : bool :=
  let n := nat_of_ascii c in
  (((9 <=? n) && (n <=? 13)) || (n =? 32))%nat.

Fixpoint trimStart (s : string) : string :=
  match s with
  | EmptyString => EmptyString
  | String c r => if is_space c then trimStart r else s
  end.

Fixpoint trimEnd (s : string) : string :=
  match s with
  | EmptyString => EmptyString
  | String c r =>
      match trimEnd r with
      | EmptyString => if is_space c then EmptyString else String c EmptyString
      | r' => String c r'
      end
  end.

(** [String.prototype.trim] *)
Definition trim (s : string) : string := trimEnd (trimStart s).

(** Truthiness of a value that is a string or [undefined]. *)
Definition truthy (v : option string) : bool :=
  match v with
  | Some s => negb (String.eqb s EmptyString)
  | None => false
  end.

(** [a || b] on such values, with a string on the right. *)
Definition or_else (a : option string) (b : string) : string :=
  match a with
  | Some s => if String.eqb s EmptyString then b else s
  | None => b
  end.

(** A value interpolated in a template literal. *)
Definition show (v : option string) : string :=
  match v with
  | Some s => s
  | None => "undefined"
  end.

(** [/^\S+@\S+\.\S+$/.test(s)]: no white space anywhere, an [@] after at
    least one character, and a dot at least one character after the [@] and
    at least one character before the end. *)
Fixpoint no_space (s : string) : bool :=
  match s with
  | EmptyString => true
  | String c r => negb (is_space c) && no_space r
  end.

(** a dot that has a character before it and a character after it *)
Fixpoint dot_inside (seen : bool) (s : string) : bool :=
  match s with
  | EmptyString => false
  | String c r =>
      (seen && Ascii.eqb c "."%char && negb (String.eqb r EmptyString))
      || dot_inside true r
  end.

Fixpoint at_then_dot (seen : bool) (s : string) : bool :=
  match s with
  | EmptyString => false
  | String c r =>
      (seen && Ascii.eqb c "@"%char && dot_inside false r)
      || at_then_dot true r
  end.

Definition matches_email (s : string) : bool :=
  no_space s && at_then_dot false s.

Definition is_hex (c : ascii) : bool :=
  let n := nat_of_ascii c in
  (((48 <=? n) && (n <=? 57)) || ((65 <=? n) && (n <=? 70))
   || ((97 <=? n) && (n <=? 102)))%nat.

Fixpoint all_hex (s : string) : bool :=
  match s with
  | EmptyString => true
  | String c r => is_hex c && all_hex r
  end.

End Js.

(** ** constants/httpStatus.ts *)

Module httpStatus.
Definition OK : Z := 200.
Definition CREATED : Z := 201.
Definition NO_CONTENT : Z := 204.
Definition BAD_REQUEST : Z := 400.
Definition UNAUTHORIZED : Z := 401.
Definition FORBIDDEN : Z := 403.
Definition NOT_FOUND : Z := 404.
Definition CONFLICT : Z := 409.
Definition UNPROCESSABLE_ENTITY : Z := 422.
Definition INTERNAL_SERVER_ERROR : Z := 500.
Definition NOT_IMPLEMENTED : Z := 501.
Definition BAD_GATEWAY : Z := 502.
Definition SERVICE_UNAVAILABLE : Z := 503.
End httpStatus.

(** ** constants/permissions.ts *)

Module Permission.
Definition MANAGE_USERS : string := "manageUsers".
Definition GET_USERS : string := "getUsers".
Definition GET_PROFILE : string := "getProfile".
Definition UPDATE_OWN_PROFILE : string := "updateOwnProfile".
End Permission.

Definition ALL_PERMISSIONS : list string :=
  [Permission.MANAGE_USERS; Permission.GET_USERS;
   Permission.GET_PROFILE; Permission.UPDATE_OWN_PROFILE].

(** ** constants/roles.ts *)

Module Role.
Definition ADMIN : string := "admin".
Definition USER : string := "user".
Definition THERAPIST : string := "therapist".
End Role.

Definition ALL_ROLES : list string := [Role.ADMIN; Role.USER; Role.THERAPIST].

(** The object literal [RolePermissions], read through its own keys. *)
Definition RolePermissions : gmap string (list string) :=
  <[Role.ADMIN := [Permission.MANAGE_USERS; Permission.GET_USERS;
                   Permission.GET_PROFILE; Permission.UPDATE_OWN_PROFILE]]>
  (<[Role.USER := [Permission.GET_PROFILE; Permission.UPDATE_OWN_PROFILE]]>
  (<[Role.THERAPIST := [Permission.GET_PROFILE; Permission.UPDATE_OWN_PROFILE]]> ∅)).

(** [RolePermissions[role] || []] *)
Definition getPermissionsForRole (role : string) : list string :=
  default [] (RolePermissions !! role).

(** [Array.prototype.includes] on permission tokens *)
Definition includes (permissions : list string) (permission : string) : bool :=
  bool_decide (permission ∈ permissions).

Definition roleHasPermission (role permission : string) : bool :=
  includes (getPermissionsForRole role) permission.

(** ** Errors

    [ApiError] is errors/ApiError.ts; the other constructors are the
    exceptions of Mongoose, of the MongoDB driver and of plain JavaScript
    that the code catches or lets through. *)

Inductive Error : Type :=
| ApiError (statusCode : Z) (message : string)
| ValidationError (messages : list string)
| MongoServerError (code : Z) (keyPattern : string)
| CastError (path value : string)
| JsError (name message : string).

Definition statusCode_of (e : Error) : option Z :=
  match e with
  | ApiError c _ => Some c
  | _ => None
  end.

Inductive Outcome (A : Type) : Type :=
| Ok (a : A)
| Throw (e : Error).
Arguments Ok {A} a.
Arguments Throw {A} e.

(** ** Documents *)

Module IUser.
Record t : Type := mk {
  _id : string;
  name : string;
  email : string;
  password : option string;
  role : string;
  googleId : option string;
  profilePicture : option string;
  authProvider : string;
  createdAt : Z;
  updatedAt : Z
}.
End IUser.

Module IToken.
Record t : Type := mk {
  token : string;
  userId : string;
  expiresAt : Z;
  createdAt : Z
}.
End IToken.

(** config/token.config.ts *)
Module JwtPayload.
Record t : Type := mk {
  userId : option string;
  email : option string;
  role : option string;
  iat : option Z;
  exp : option Z;
  iss : option string;
  aud : option string
}.
End JwtPayload.

Record JwtConfig : Type := {
  accessSecret : string;
  refreshSecret : string;
  accessExpiration : string;
  refreshExpiration : string;
  issuer : string;
  audience : string
}.

Record SignOptions : Type := {
  sign_expiresIn : string;
  sign_issuer : string;
  sign_audience : string
}.

Record VerifyOptions : Type := {
  verify_issuer : string;
  verify_audience : string
}.

(** types/google.types.ts *)
Module GoogleAuthData.
Record t : Type := mk {
  googleId : string;
  email : string;
  name : string;
  profilePicture : option string
}.
End GoogleAuthData.

Record GoogleEmail : Type := { value : string; verified : bool }.

Module GoogleProfile.
Record t : Type := mk {
  id : string;
  displayName : string;
  emails : list GoogleEmail;
  photos : list string
}.
End GoogleProfile.

(** The payload of a Google ID token (google-auth-library's [TokenPayload]),
    with the fields the controller reads. The controller reads [email] as
    [payload.email!], only where [email_verified] holds; Google issues the
    two claims together. *)
Module TokenPayload.
Record t : Type := mk {
  sub : string;
  email : string;
  email_verified : option bool;
  name : option string;
  picture : option string
}.
End TokenPayload.

Record TokenPair : Type := { accessToken : string; refreshToken : string }.

(** ** What the code calls but does not contain

    jsonwebtoken's [sign] and [verify] (which read the clock), bcrypt's
    [hash] (with its salt) and [compare], google-auth-library's
    [verifyIdToken] followed by [getPayload], and the process environment.
    Nothing is assumed of them. *)

Class Externals : Type := {
  process_env : gmap string string;
  jwt_sign : JwtPayload.t → string → SignOptions → Z → string;
  jwt_verify : string → string → VerifyOptions → Z → Outcome JwtPayload.t;
  bcrypt_hash : string → string;
  bcrypt_compare : string → string → bool;
  google_verifyIdToken : string → option string → Z → Outcome (option TokenPayload.t)
}.

(** ** The store, the clock, and what a request can observe of them *)

(** The two collections, the supply of ObjectIds and the wall clock (in
    milliseconds). The ledger of refresh tokens is keyed by the token string,
    on which the schema declares a unique index. *)
Record Store : Type := {
  users : list IUser.t;
  tokens : gmap string IToken.t;
  next_oid : N;
  clock : Z
}.

Definition set_users (us : list IUser.t) (s : Store) : Store :=
  {| users := us; tokens := tokens s; next_oid := next_oid s; clock := clock s |}.

Definition set_tokens (ts : gmap string IToken.t) (s : Store) : Store :=
  {| users := users s; tokens := ts; next_oid := next_oid s; clock := clock s |}.

Definition bump_oid (s : Store) : Store :=
  {| users := users s; tokens := tokens s; next_oid := N.succ (next_oid s);
     clock := clock s |}.

(** One round trip to the database, as a request issues it. *)
Inductive StoreOp : Type :=
| UserFindOne (field value : string)
| UserFindById (id : option string)
| UserFindByIdAndUpdate (id : string)
| UserSave (id : string)
| TokenFindOne (token : string)
| TokenDeleteOne (token : string)
| TokenCreate (token : string).

Definition is_write (op : StoreOp) : bool :=
  match op with
  | UserFindByIdAndUpdate _ | UserSave _ | TokenDeleteOne _ | TokenCreate _ => true
  | _ => false
  end.

Definition on_users (op : StoreOp) : bool :=
  match op with
  | UserFindOne _ _ | UserFindById _ | UserFindByIdAndUpdate _ | UserSave _ => true
  | _ => false
  end.

Inductive Level : Type := info | warn | error.

Record LogEntry : Type := {
  level : Level;
  message : string;
  meta : option Error
}.

(** The world of one request: the store; what other requests do to it
    between this request's round trips ([pending], one entry consumed before
    each round trip); the round trips made so far, each with the store it
    left behind; and the lines written to the logger. *)
Record World : Type := {
  store : Store;
  pending : list (Store → Store);
  trace : list (StoreOp * Store);
  logs : list LogEntry
}.

(** An async function: it runs in a world, and returns or throws. State
    changes made before a throw stay. *)
Definition M (A : Type) : Type := World → Outcome A * World.

Definition ret {A} (a : A) : M A := fun w => (Ok a, w).

Definition throw {A} (e : Error) : M A := fun w => (Throw e, w).

Definition bind {A B} (m : M A) (k : A → M B) : M B :=
  fun w =>
    match m w with
    | (Ok a, w') => k a w'
    | (Throw e, w') => (Throw e, w')
    end.

(** [try { m } catch (error) { h error }] *)
Definition try_catch {A} (m : M A) (h : Error → M A) : M A :=
  fun w =>
    match m w with
    | (Ok a, w') => (Ok a, w')
    | (Throw e, w') => h e w'
    end.

Declare Scope async_scope.
Delimit Scope async_scope with async.
Notation "'let*' x ':=' m 'in' k" := (bind m (fun x => k))
  (at level 10, x name, m at level 100, k at level 200) : async_scope.
Notation "m ';;' k" := (bind m (fun _ => k))
  (at level 100, k at level 200, right associativity) : async_scope.
Open Scope async_scope.

(** A round trip: the writes of other requests that landed since the last
    one are applied first, then the operation runs on the store. *)
Definition await {A} (op : StoreOp) (f : Store → Outcome A * Store) : M A :=
  fun w =>
    let s0 := match pending w with
              | [] => store w
              | g :: _ => g (store w)
              end in
    let '(r, s1) := f s0 in
    (r, {| store := s1; pending := tail (pending w);
           trace := trace w ++ [(op, s1)]; logs := logs w |}).

(** [new Date()], in milliseconds *)
Definition new_Date : M Z := fun w => (Ok (clock (store w)), w).

Definition logger (l : Level) (msg : string) (e : option Error) : M unit :=
  fun w =>
    (Ok tt, {| store := store w; pending := pending w; trace := trace w;
               logs := logs w ++ [{| level := l; message := msg; meta := e |}] |}).

(** A request that runs alone, and a request that runs against the writes
    [env] of other requests. *)
Definition start (env : list (Store → Store)) (s : Store) : World :=
  {| store := s; pending := env; trace := []; logs := [] |}.

Definition run {A} (m : M A) (s : Store) : Outcome A * World := m (start [] s).

Definition run_against {A} (env : list (Store → Store)) (m : M A) (s : Store)
  : Outcome A * World := m (start env s).

(** ** ObjectId: the 24 hexadecimal digits of a document id *)

Module ObjectId.

Definition isValid (s : string) : bool :=
  (String.length s =? 24)%nat && Js.all_hex s.

(** Casting a string to an ObjectId reads the digits in either case. *)
Definition cast (s : string) : option string :=
  if isValid s then Some (Js.toLowerCase s) else None.

(** The strings that [toString] produces. *)
Definition canonical (s : string) : bool :=
  isValid s && String.eqb (Js.toLowerCase s) s.

Definition hex_digit (n : N) : ascii :=
  if (n <? 10)%N then ascii_of_N (48 + n) else ascii_of_N (87 + n).

Fixpoint hex_digits (k : nat) (n : N) (acc : string) : string :=
  match k with
  | O => acc
  | S k' => hex_digits k' (n / 16)%N (String (hex_digit (n mod 16)%N) acc)
  end.

Definition generate (counter : N) : string := hex_digits 24 counter EmptyString.

End ObjectId.

Definition error_name (e : Error) : string :=
  match e with
  | ApiError _ _ => "Error"
  | ValidationError _ => "ValidationError"
  | MongoServerError _ _ => "MongoServerError"
  | CastError _ _ => "CastError"
  | JsError n _ => n
  end.

Definition error_code (e : Error) : option Z :=
  match e with
  | MongoServerError c _ => Some c
  | _ => None
  end.

Definition error_message (e : Error) : string :=
  match e with
  | ApiError _ m => m
  | ValidationError ms => String.concat ", " ms
  | MongoServerError _ k => "E11000 duplicate key error, index: " +:+ k
  | CastError p v => "Cast to ObjectId failed for value " +:+ v +:+ " at path " +:+ p
  | JsError _ m => m
  end.

(** ** models/user.model.ts *)

Module User.

(** The setters of the schema: [trim] on [name]; [lowercase] and [trim] on
    [email]. Mongoose runs them when a document is built and also on the
    values of a query filter. *)
Definition set_name (v : string) : string := Js.trim v.
Definition set_email (v : string) : string := Js.toLowerCase (Js.trim v).

Inductive Filter : Type :=
| ByGoogleId (googleId : string)
| ByEmail (email : string).

Definition matches (f : Filter) (u : IUser.t) : bool :=
  match f with
  | ByGoogleId g => bool_decide (IUser.googleId u = Some g)
  | ByEmail e => String.eqb (IUser.email u) (set_email e)
  end.

Definition op_of (f : Filter) : StoreOp :=
  match f with
  | ByGoogleId g => UserFindOne "googleId" g
  | ByEmail e => UserFindOne "email" e
  end.

(** [User.findOne(filter)] *)
Definition findOne (f : Filter) : M (option IUser.t) :=
  await (op_of f) (fun s => (Ok (List.find (matches f) (users s)), s)).

Definition has_id (o : string) (u : IUser.t) : bool := String.eqb (IUser._id u) o.

(** [User.findById(id)]; [findById(undefined)] queries for [_id: null]. *)
Definition findById (id : option string) : M (option IUser.t) :=
  match id with
  | None => await (UserFindById None) (fun s => (Ok None, s))
  | Some i =>
      match ObjectId.cast i with
      | None => throw (CastError "_id" i)
      | Some o =>
          await (UserFindById id) (fun s => (Ok (List.find (has_id o) (users s)), s))
      end
  end.

(** [new User({...})]: the id is drawn, the setters and the defaults of the
    schema are applied; the timestamps are set by [save]. *)
Definition new_User (name email : string) (password : option string)
    (role : option string) (googleId profilePicture : option string)
    (authProvider : option string) : M IUser.t :=
  fun w =>
    let s := store w in
    (Ok (IUser.mk (ObjectId.generate (next_oid s)) (set_name name) (set_email email)
           password (default Role.USER role) googleId profilePicture
           (default "local" authProvider) 0 0),
     {| store := bump_oid s; pending := pending w; trace := trace w; logs := logs w |}).

Definition validate_name (v : string) : list string :=
  if String.eqb v "" then ["Name is required"]
  else if (String.length v <? 2)%nat then ["Name must be at least 2 characters"]
  else if (100 <? String.length v)%nat then ["Name must be less than 100 characters"]
  else [].

Definition validate_email (v : string) : list string :=
  if String.eqb v "" then ["Email is required"]
  else if negb (Js.matches_email v) then ["Please provide a valid email address"]
  else [].

(** [required] holds exactly for accounts of the local provider. *)
Definition validate_password (authProvider : string) (v : option string) : list string :=
  let required := String.eqb authProvider "local" in
  match v with
  | None => if required then ["Path `password` is required."] else []
  | Some p =>
      if required && String.eqb p "" then ["Path `password` is required."]
      else if (String.length p <? 6)%nat then ["Password must be at least 6 characters"]
      else []
  end.

Definition validate_enum (path : string) (allowed : list string) (v : string)
  : list string :=
  if String.eqb v "" then ["Path `" +:+ path +:+ "` is required."]
  else if bool_decide (v ∈ allowed) then []
  else ["`" +:+ v +:+ "` is not a valid enum value for path `" +:+ path +:+ "`."].

Definition validate (u : IUser.t) : list string :=
  validate_name (IUser.name u) ++ validate_email (IUser.email u)
  ++ validate_password (IUser.authProvider u) (IUser.password u)
  ++ validate_enum "role" ALL_ROLES (IUser.role u)
  ++ validate_enum "authProvider" ["local"; "google"] (IUser.authProvider u).

Definition with_password (p : option string) (u : IUser.t) : IUser.t :=
  IUser.mk (IUser._id u) (IUser.name u) (IUser.email u) p (IUser.role u)
    (IUser.googleId u) (IUser.profilePicture u) (IUser.authProvider u)
    (IUser.createdAt u) (IUser.updatedAt u).

Definition with_timestamps (created updated : Z) (u : IUser.t) : IUser.t :=
  IUser.mk (IUser._id u) (IUser.name u) (IUser.email u) (IUser.password u)
    (IUser.role u) (IUser.googleId u) (IUser.profilePicture u)
    (IUser.authProvider u) created updated.

(** The pre-save hook, on a new document: a password that is set and not
    empty is replaced by its hash. *)
Definition pre_save `{Externals} (u : IUser.t) : IUser.t :=
  match IUser.password u with
  | Some p => if String.eqb p "" then u else with_password (Some (bcrypt_hash p)) u
  | None => u
  end.

(** The unique indexes: [_id], [email], and [googleId] among the documents
    that have one (sparse). *)
Definition duplicate_key (doc : IUser.t) (others : list IUser.t) : option string :=
  if existsb (has_id (IUser._id doc)) others then Some "_id"
  else if existsb (fun u => String.eqb (IUser.email u) (IUser.email doc)) others
  then Some "email"
  else match IUser.googleId doc with
       | Some g =>
           if existsb (fun u => bool_decide (IUser.googleId u = Some g)) others
           then Some "googleId" else None
       | None => None
       end.

(** [user.save()] on a new document: validation, the hook, then the insert. *)
Definition save `{Externals} (u : IUser.t) : M IUser.t :=
  match validate u with
  | [] =>
      let* now := new_Date in
      let doc := with_timestamps now now (pre_save u) in
      await (UserSave (IUser._id doc)) (fun s =>
        match duplicate_key doc (users s) with
        | Some k => (Throw (MongoServerError 11000 k), s)
        | None => (Ok doc, set_users (users s ++ [doc]) s)
        end)
  | msgs => throw (ValidationError msgs)
  end.

(** The update document [{ googleId, profilePicture }]; a key whose value is
    [undefined] is left out of the update. *)
Definition apply_update (googleId : string) (profilePicture : option string)
    (now : Z) (u : IUser.t) : IUser.t :=
  IUser.mk (IUser._id u) (IUser.name u) (IUser.email u) (IUser.password u)
    (IUser.role u) (Some googleId)
    (match profilePicture with
     | Some p => Some p
     | None => IUser.profilePicture u
     end)
    (IUser.authProvider u) (IUser.createdAt u) now.

Fixpoint update_first (P : IUser.t → bool) (f : IUser.t → IUser.t)
    (l : list IUser.t) : list IUser.t :=
  match l with
  | [] => []
  | u :: r => if P u then f u :: r else u :: update_first P f r
  end.

(** [User.findByIdAndUpdate(id, { googleId, profilePicture }, { new: true })] *)
Definition findByIdAndUpdate (id : string) (googleId : string)
    (profilePicture : option string) : M (option IUser.t) :=
  match ObjectId.cast id with
  | None => throw (CastError "_id" id)
  | Some o =>
      let* now := new_Date in
      await (UserFindByIdAndUpdate id) (fun s =>
        match List.find (has_id o) (users s) with
        | None => (Ok None, s)
        | Some u =>
            if existsb (fun v => negb (has_id o v)
                                 && bool_decide (IUser.googleId v = Some googleId))
                 (users s)
            then (Throw (MongoServerError 11000 "googleId"), s)
            else
              let u' := apply_update googleId profilePicture now u in
              (Ok (Some u'),
               set_users (update_first (has_id o) (fun _ => u') (users s)) s)
        end)
  end.

(** The instance method [comparePassword]. *)
Definition comparePassword `{Externals} (u : IUser.t) (candidatePassword : string)
  : bool :=
  match IUser.password u with
  | None => false
  | Some digest =>
      if String.eqb digest "" then false
      else bcrypt_compare candidatePassword digest
  end.

End User.

(** ** models/token.model.ts *)

Module Token.

(** [Token.findOne({ token })] *)
Definition findOne (token : string) : M (option IToken.t) :=
  await (TokenFindOne token) (fun s => (Ok (tokens s !! token), s)).

(** [Token.deleteOne({ token })], returning [deletedCount] *)
Definition deleteOne (token : string) : M Z :=
  await (TokenDeleteOne token) (fun s =>
    match tokens s !! token with
    | Some _ => (Ok 1, set_tokens (delete token (tokens s)) s)
    | None => (Ok 0, s)
    end).

Definition validate (token userId : string) (expiresAt : option Z) : list string :=
  (if String.eqb token "" then ["Path `token` is required."] else [])
  ++ (if ObjectId.isValid userId then []
      else ["Cast to ObjectId failed for value " +:+ userId +:+ " at path userId"])
  ++ (match expiresAt with
      | Some _ => []
      | None => ["Cast to date failed for value Invalid Date at path expiresAt"]
      end).

(** [Token.create({ token, userId, expiresAt })]; an invalid [Date] is
    [None]. *)
Definition create (token userId : string) (expiresAt : option Z) : M IToken.t :=
  match validate token userId expiresAt, expiresAt with
  | [], Some e =>
      let* now := new_Date in
      let doc := IToken.mk token (Js.toLowerCase userId) e now in
      await (TokenCreate token) (fun s =>
        match tokens s !! token with
        | Some _ => (Throw (MongoServerError 11000 "token"), s)
        | None => (Ok doc, set_tokens (<[token := doc]> (tokens s)) s)
        end)
  | msgs, _ => throw (ValidationError msgs)
  end.

End Token.

Section Services.

Context `{Externals}.

(** ** config/token.config.ts *)

Definition jwtConfig : JwtConfig :=
  {| accessSecret := Js.or_else (process_env !! "JWT_ACCESS_SECRET")
                       "your-access-secret-key-change-in-production";
     refreshSecret := Js.or_else (process_env !! "JWT_REFRESH_SECRET")
                        "your-refresh-secret-key-change-in-production";
     accessExpiration := Js.or_else (process_env !! "JWT_ACCESS_EXPIRATION") "15m";
     refreshExpiration := Js.or_else (process_env !! "JWT_REFRESH_EXPIRATION") "7d";
     issuer := "boilerplate";
     audience := "boilerplate-users" |}.

(** ** services/token.service.ts *)

Definition generateAccessToken (userId email : string) (role : option string)
  : M string :=
  let payload := JwtPayload.mk (Some userId) (Some email) role None None None None in
  let* now := new_Date in
  ret (jwt_sign payload (accessSecret jwtConfig)
         {| sign_expiresIn := accessExpiration jwtConfig;
            sign_issuer := issuer jwtConfig;
            sign_audience := audience jwtConfig |} now).

Definition generateRefreshToken (userId email : string) (role : option string)
  : M string :=
  let payload := JwtPayload.mk (Some userId) (Some email) role None None None None in
  let* now := new_Date in
  ret (jwt_sign payload (refreshSecret jwtConfig)
         {| sign_expiresIn := refreshExpiration jwtConfig;
            sign_issuer := issuer jwtConfig;
            sign_audience := audience jwtConfig |} now).

Definition generateTokenPair (userId email : string) (role : option string)
  : M TokenPair :=
  let* a := generateAccessToken userId email role in
  let* r := generateRefreshToken userId email role in
  ret {| accessToken := a; refreshToken := r |}.

Definition verifyAccessToken (token : string) : M JwtPayload.t :=
  let* now := new_Date in
  match jwt_verify token (accessSecret jwtConfig)
          {| verify_issuer := issuer jwtConfig;
             verify_audience := audience jwtConfig |} now with
  | Ok payload => ret payload
  | Throw e =>
      if String.eqb (error_name e) "TokenExpiredError"
      then throw (ApiError httpStatus.UNAUTHORIZED "Access token expired")
      else if String.eqb (error_name e) "JsonWebTokenError"
      then throw (ApiError httpStatus.UNAUTHORIZED "Invalid access token")
      else throw (ApiError httpStatus.UNAUTHORIZED "Token verification failed")
  end.

Definition verifyRefreshToken (token : string) : M JwtPayload.t :=
  let* now := new_Date in
  match jwt_verify token (refreshSecret jwtConfig)
          {| verify_issuer := issuer jwtConfig;
             verify_audience := audience jwtConfig |} now with
  | Ok payload => ret payload
  | Throw e =>
      if String.eqb (error_name e) "TokenExpiredError"
      then throw (ApiError httpStatus.UNAUTHORIZED "Refresh token expired")
      else if String.eqb (error_name e) "JsonWebTokenError"
      then throw (ApiError httpStatus.UNAUTHORIZED "Invalid refresh token")
      else throw (ApiError httpStatus.UNAUTHORIZED "Token verification failed")
  end.

Definition saveRefreshToken (token userId : string) (expiresAt : option Z)
  : M unit :=
  Token.create token userId expiresAt ;; ret tt.

(** ** services/user.service.ts *)

Definition getUserByGoogleId (googleId : string) : M (option IUser.t) :=
  User.findOne (User.ByGoogleId googleId).

Definition getUserByEmailInternal (email : string) : M (option IUser.t) :=
  User.findOne (User.ByEmail (Js.toLowerCase email)).

Definition createGoogleUser (googleData : GoogleAuthData.t) : M IUser.t :=
  try_catch
    (let* user := User.new_User (GoogleAuthData.name googleData)
                    (GoogleAuthData.email googleData) None (Some "user")
                    (Some (GoogleAuthData.googleId googleData))
                    (GoogleAuthData.profilePicture googleData) (Some "google") in
     User.save user)
    (fun error =>
       if bool_decide (error_code error = Some 11000)
       then throw (ApiError httpStatus.CONFLICT "Email already exists")
       else throw error).

Definition linkGoogleAccount (userId googleId : string)
    (profilePicture : option string) : M IUser.t :=
  let* user := User.findByIdAndUpdate userId googleId profilePicture in
  match user with
  | None => throw (ApiError httpStatus.NOT_FOUND "User not found")
  | Some user => ret user
  end.

(** ** services/auth.service.ts *)

(** Seven days, as [setDate(getDate() + 7)] adds them where no change of
    clock falls in between. *)
Definition seven_days : Z := 7 * 24 * 60 * 60 * 1000.

Definition authenticateUser (email password : string) : M TokenPair :=
  let* user := User.findOne (User.ByEmail (Js.toLowerCase email)) in
  match user with
  | None =>
      logger warn ("Login attempt failed: User not found for email " +:+ email) None ;;
      throw (ApiError httpStatus.UNAUTHORIZED "Invalid email or password")
  | Some user =>
      let isPasswordValid := User.comparePassword user password in
      if negb isPasswordValid then
        logger warn ("Login attempt failed: Invalid password for email " +:+ email) None ;;
        throw (ApiError httpStatus.UNAUTHORIZED "Invalid email or password")
      else
        let* tokens := generateTokenPair (IUser._id user) (IUser.email user)
                         (Some (IUser.role user)) in
        let* now := new_Date in
        let expiresAt := now + seven_days in
        Token.create (refreshToken tokens) (IUser._id user) (Some expiresAt) ;;
        logger info ("User authenticated successfully: " +:+ IUser.email user) None ;;
        ret tokens
  end.

Definition refreshAccessToken (refreshToken_ : string) : M string :=
  let* payload := verifyRefreshToken refreshToken_ in
  let* tokenDoc := Token.findOne refreshToken_ in
  match tokenDoc with
  | None =>
      logger warn ("Refresh token not found in database for user "
                   +:+ Js.show (JwtPayload.userId payload)) None ;;
      throw (ApiError httpStatus.UNAUTHORIZED "Invalid or expired refresh token")
  | Some tokenDoc =>
      let* now := new_Date in
      if IToken.expiresAt tokenDoc <? now then
        Token.deleteOne refreshToken_ ;;
        logger warn ("Refresh token expired for user "
                     +:+ Js.show (JwtPayload.userId payload)) None ;;
        throw (ApiError httpStatus.UNAUTHORIZED "Refresh token expired")
      else
        let* user := User.findById (JwtPayload.userId payload) in
        match user with
        | None =>
            Token.deleteOne refreshToken_ ;;
            logger warn ("User not found for refresh token: "
                         +:+ Js.show (JwtPayload.userId payload)) None ;;
            throw (ApiError httpStatus.UNAUTHORIZED "User not found")
        | Some user =>
            let* tokens := generateTokenPair (IUser._id user) (IUser.email user)
                             (JwtPayload.role payload) in
            Token.deleteOne refreshToken_ ;;
            let* now := new_Date in
            let expiresAt := now + seven_days in
            Token.create (refreshToken tokens) (IUser._id user) (Some expiresAt) ;;
            logger info ("Access token refreshed for user: " +:+ IUser.email user) None ;;
            ret (accessToken tokens)
        end
  end.

Definition revokeRefreshToken (refreshToken_ : string) : M unit :=
  try_catch (verifyRefreshToken refreshToken_ ;; ret tt)
    (fun _ => logger warn "Attempted to revoke invalid/expired refresh token" None) ;;
  let* deletedCount := Token.deleteOne refreshToken_ in
  if deletedCount =? 0 then
    logger warn "Refresh token not found in database during revocation" None ;;
    throw (ApiError httpStatus.NOT_FOUND "Refresh token not found")
  else
    logger info "Refresh token revoked successfully" None.

Definition authenticateGoogleUser (googleData : GoogleAuthData.t) : M IUser.t :=
  try_catch
    (let* user := getUserByGoogleId (GoogleAuthData.googleId googleData) in
     match user with
     | Some user =>
         logger info ("Google user login: " +:+ IUser.email user) None ;;
         ret user
     | None =>
         let* user := getUserByEmailInternal (GoogleAuthData.email googleData) in
         match user with
         | Some user =>
             logger info ("Linking Google account to existing user: "
                          +:+ IUser.email user) None ;;
             let* user := linkGoogleAccount (IUser._id user)
                            (GoogleAuthData.googleId googleData)
                            (GoogleAuthData.profilePicture googleData) in
             ret user
         | None =>
             logger info ("Creating new Google user: "
                          +:+ GoogleAuthData.email googleData) None ;;
             let* user := createGoogleUser googleData in
             ret user
         end
     end)
    (fun error_ =>
       logger error "Google authentication error:" (Some error_) ;;
       throw (ApiError httpStatus.INTERNAL_SERVER_ERROR
                "Failed to authenticate with Google")).

End Services.

(** ** Requests and responses *)

#[warnings="-register-all"]
Inductive Json : Type :=
| JString (s : string)
| JNumber (n : Z)
| JBool (b : bool)
| JNull
| JObject (fields : list (string * Json)).

(** A property of a JSON object; [undefined] when it is not there. *)
Definition property (k : string) (j : Json) : option Json :=
  match j with
  | JObject fields => snd <$> List.find (fun kv => String.eqb (fst kv) k) fields
  | _ => None
  end.

Definition json_of_option (v : option string) : Json :=
  match v with
  | Some s => JString s
  | None => JNull
  end.

Module Response.
Record t : Type := mk {
  status : Z;
  body : Json
}.
End Response.

(** types/express.d.ts: the identity attached to an authenticated request *)
Module AuthUser.
Record t : Type := mk {
  id : string;
  email : string;
  name : string;
  role : string;
  permissions : list string
}.
End AuthUser.

Module Request.
Record t : Type := mk {
  authorization : option string;
  params : gmap string string;
  body : gmap string string;
  user : option AuthUser.t
}.
Definition with_user (u : AuthUser.t) (req : t) : t :=
  mk (authorization req) (params req) (body req) (Some u).
End Request.

(** What a middleware does with the request: [next()] or [next(err)]. *)
Inductive Next : Type :=
| next (req : Request.t)
| next_error (e : Error).

Definition Middleware : Type := Request.t → M Next.
Definition Handler : Type := Request.t → M Response.t.

(** ** middlewares/errorHandler.ts *)

Definition upper_char (c : ascii) : ascii :=
  let n := nat_of_ascii c in
  if ((97 <=? n) && (n <=? 122))%nat then ascii_of_nat (n - 32) else c.

Definition capitalize (field : string) : string :=
  match field with
  | EmptyString => EmptyString
  | String c r => String (upper_char c) r
  end.

Definition errorHandler (err : Error) : M Response.t :=
  let '(statusCode, message) :=
    match err with
    | ApiError c m => (c, m)
    | ValidationError ms => (httpStatus.BAD_REQUEST, String.concat ", " ms)
    | MongoServerError c k =>
        if c =? 11000 then (httpStatus.CONFLICT, capitalize k +:+ " already exists")
        else (httpStatus.INTERNAL_SERVER_ERROR,
              if String.eqb (error_message err) "" then "Internal server error"
              else error_message err)
    | CastError p v => (httpStatus.BAD_REQUEST, "Invalid " +:+ p +:+ ": " +:+ v)
    | JsError _ m =>
        (httpStatus.INTERNAL_SERVER_ERROR,
         if String.eqb m "" then "Internal server error" else m)
    end in
  logger error (message +:+ " - ") None ;;
  ret (Response.mk statusCode
         (JObject [("error", JObject [("statusCode", JNumber statusCode);
                                      ("message", JString message)])])).

(** A route: its middlewares in order, then its handler under
    [asyncHandler]. A middleware that calls [next(err)] or throws, and a
    handler that throws, hand the error to [errorHandler]; nothing after
    them runs. *)
Fixpoint dispatch (mws : list Middleware) (h : Handler) (req : Request.t)
  : M Response.t :=
  match mws with
  | [] => try_catch (h req) errorHandler
  | mw :: rest =>
      fun w =>
        match mw req w with
        | (Ok (next req'), w') => dispatch rest h req' w'
        | (Ok (next_error e), w') => errorHandler e w'
        | (Throw e, w') => errorHandler e w'
        end
  end.

(** ** middlewares/validate.ts, with the Zod schemas of
       validations/user.validation.ts as the messages of their issues *)

Definition validate (schema : Request.t → list string) : Middleware :=
  fun req =>
    match schema req with
    | [] => ret (next req)
    | issues =>
        ret (next_error (ApiError httpStatus.BAD_REQUEST (String.concat ", " issues)))
    end.

Definition z_string_min1 (v : option string) (msg : string) : list string :=
  match v with
  | None => ["Invalid input: expected string, received undefined"]
  | Some s => if (String.length s <? 1)%nat then [msg] else []
  end.



Definition logoutSchema (req : Request.t) : list string :=
  z_string_min1 (Request.body req !! "refreshToken") "Refresh token is required".

(** ** middlewares/permission.middleware.ts *)

Definition authentication_required : Next :=
  next_error (ApiError httpStatus.UNAUTHORIZED "Authentication required").

Definition requirePermission (permission : string) : Middleware :=
  fun req =>
    match Request.user req with
    | None => ret authentication_required
    | Some u =>
        if negb (includes (AuthUser.permissions u) permission)
        then ret (next_error (ApiError httpStatus.FORBIDDEN
                    ("Permission denied. Required permission: " +:+ permission)))
        else ret (next req)
    end.

Definition requireRole (role : string) : Middleware :=
  fun req =>
    match Request.user req with
    | None => ret authentication_required
    | Some u =>
        if negb (String.eqb (AuthUser.role u) role)
        then ret (next_error (ApiError httpStatus.FORBIDDEN
                    ("Access denied. Required role: " +:+ role)))
        else ret (next req)
    end.

Definition requireAnyPermission (permissions : list string) : Middleware :=
  fun req =>
    match Request.user req with
    | None => ret authentication_required
    | Some u =>
        let hasPermission := existsb (includes (AuthUser.permissions u)) permissions in
        if negb hasPermission
        then ret (next_error (ApiError httpStatus.FORBIDDEN
                    ("Permission denied. Required one of: "
                     +:+ String.concat ", " permissions)))
        else ret (next req)
    end.

Definition requireAllPermissions (permissions : list string) : Middleware :=
  fun req =>
    match Request.user req with
    | None => ret authentication_required
    | Some u =>
        let hasAllPermissions := forallb (includes (AuthUser.permissions u)) permissions in
        if negb hasAllPermissions
        then ret (next_error (ApiError httpStatus.FORBIDDEN
                    ("Permission denied. Required all of: "
                     +:+ String.concat ", " permissions)))
        else ret (next req)
    end.

Definition requireOwnership (userIdParam : string) : Middleware :=
  fun req =>
    match Request.user req with
    | None => ret authentication_required
    | Some u =>
        let resourceUserId := Request.params req !! userIdParam in
        if bool_decide (Some (AuthUser.id u) = resourceUserId)
        then ret (next req)
        else ret (next_error (ApiError httpStatus.FORBIDDEN
                    "Access denied. You can only access your own resources."))
    end.


(** ** config/passport.config.ts *)

(** What a strategy's verify callback hands to [done]. *)
Inductive Done (A : Type) : Type :=
| done_ok (a : A)
| done_fail
| done_error (e : Error).
Arguments done_ok {A} a.
Arguments done_fail {A}.
Arguments done_error {A} e.

(** The user object the JWT strategy builds (no permissions yet). *)
Module JwtUser.
Record t : Type := mk {
  id : string;
  email : string;
  name : string;
  role : string
}.
End JwtUser.

(** How a strategy ends: [success(user)], [fail(info)] or [error(err)]. *)
Inductive AuthResult : Type :=
| auth_success (u : JwtUser.t)
| auth_fail (info : option string)
| auth_error (e : Error).

(** passport-jwt's [ExtractJwt.fromAuthHeaderAsBearerToken]: the header is
    matched against [(\S+)\s+(\S+)], its scheme compared to [bearer] without
    regard to case. *)
Fixpoint words_go (cur : string) (s : string) : list string :=
  match s with
  | EmptyString => if String.eqb cur "" then [] else [cur]
  | String c r =>
      if Js.is_space c
      then (if String.eqb cur "" then words_go "" r else cur :: words_go "" r)
      else words_go (cur +:+ String c EmptyString) r
  end.

Definition fromAuthHeaderAsBearerToken (req : Request.t) : option string :=
  match Request.authorization req with
  | None => None
  | Some header =>
      match words_go "" header with
      | scheme :: value_ :: _ =>
          if String.eqb (Js.toLowerCase scheme) "bearer" then Some value_ else None
      | _ => None
      end
  end.

Definition unverified_email_message : string := "Email not verified by Google".

Section Http.

Context `{Externals}.

(** The verify callback of the JWT strategy. *)
Definition jwtVerifyCallback (payload : JwtPayload.t) : M (Done JwtUser.t) :=
  try_catch
    (if negb (Js.truthy (JwtPayload.userId payload))
        || negb (Js.truthy (JwtPayload.email payload))
        || negb (Js.truthy (JwtPayload.role payload))
     then
       logger warn "JWT authentication failed: Invalid token payload" None ;;
       ret done_fail
     else
       ret (done_ok (JwtUser.mk (default "" (JwtPayload.userId payload))
                       (default "" (JwtPayload.email payload))
                       ""
                       (default "" (JwtPayload.role payload)))))
    (fun error_ =>
       logger error "Error in JWT strategy:" (Some error_) ;;
       ret (done_error error_)).

(** passport-jwt's strategy with the options of the file: the token is
    extracted, verified with the access secret, issuer and audience, and its
    payload handed to the verify callback. *)
Definition JwtStrategy (req : Request.t) : M AuthResult :=
  match fromAuthHeaderAsBearerToken req with
  | None => ret (auth_fail (Some "No auth token"))
  | Some token =>
      let* now := new_Date in
      match jwt_verify token (accessSecret jwtConfig)
              {| verify_issuer := issuer jwtConfig;
                 verify_audience := audience jwtConfig |} now with
      | Throw e => ret (auth_fail (Some (error_message e)))
      | Ok payload =>
          let* d := jwtVerifyCallback payload in
          match d with
          | done_ok u => ret (auth_success u)
          | done_fail => ret (auth_fail None)
          | done_error e => ret (auth_error e)
          end
      end
  end.

(** The verify callback of the Google strategy. *)
Definition googleVerifyCallback (profile : GoogleProfile.t) : M (Done IUser.t) :=
  try_catch
    (let email := head (GoogleProfile.emails profile) in
     match email with
     | Some email =>
         if negb (verified email) then
           logger warn ("Google OAuth failed: Email not verified for "
                        +:+ GoogleProfile.id profile) None ;;
           ret (done_error (JsError "Error" unverified_email_message))
         else
           let googleData :=
             GoogleAuthData.mk (GoogleProfile.id profile) (value email)
               (GoogleProfile.displayName profile)
               (head (GoogleProfile.photos profile)) in
           let* user := authenticateGoogleUser googleData in
           logger info ("Google OAuth successful for user: " +:+ IUser.email user) None ;;
           ret (done_ok user)
     | None =>
         logger warn ("Google OAuth failed: Email not verified for "
                      +:+ GoogleProfile.id profile) None ;;
         ret (done_error (JsError "Error" unverified_email_message))
     end)
    (fun error_ =>
       logger error "Google OAuth error:" (Some error_) ;;
       ret (done_error error_)).

(** ** middlewares/auth.middleware.ts *)

Definition authenticate : Middleware :=
  fun req =>
    let* r := JwtStrategy req in
    match r with
    | auth_error err => ret (next_error err)
    | auth_fail info_ =>
        let message := Js.or_else info_ "Unauthorized" in
        ret (next_error (ApiError httpStatus.UNAUTHORIZED message))
    | auth_success user =>
        ret (next (Request.with_user
                     (AuthUser.mk (JwtUser.id user) (JwtUser.email user)
                        (JwtUser.name user) (JwtUser.role user)
                        (getPermissionsForRole (JwtUser.role user)))
                     req))
    end.

(** ** services/user.service.ts and controllers/user.controller.ts: reading
       one user *)

Definition toUserResponse (user : IUser.t) : Json :=
  JObject [("id", JString (IUser._id user));
           ("name", JString (IUser.name user));
           ("email", JString (IUser.email user));
           ("role", JString (IUser.role user));
           ("createdAt", JNumber (IUser.createdAt user));
           ("updatedAt", JNumber (IUser.updatedAt user))].

Definition userService_getUserById (id : option string) : M Json :=
  match id with
  | Some i =>
      if negb (ObjectId.isValid i)
      then throw (ApiError httpStatus.BAD_REQUEST "Invalid user ID")
      else
        let* user := User.findById (Some i) in
        match user with
        | None => throw (ApiError httpStatus.NOT_FOUND "User not found")
        | Some user => ret (toUserResponse user)
        end
  | None => throw (ApiError httpStatus.BAD_REQUEST "Invalid user ID")
  end.


(** ** routes/user.route.ts: [GET /:id], behind [router.use(authenticate)] *)





(** ** controllers/auth.controller.ts *)



(** [POST /logout], behind [validate(logoutSchema)], which lets only a
    body with a [refreshToken] pass. *)
Definition logoutUser (refreshToken_ : string) : M Response.t :=
  revokeRefreshToken refreshToken_ ;;
  ret (Response.mk httpStatus.OK
         (JObject [("message", JString "Logged out successfully")])).

Definition logout_route : Handler :=
  dispatch [validate logoutSchema]
    (fun request =>
       match Request.body request !! "refreshToken" with
       | Some refreshToken_ => logoutUser refreshToken_
       | None => throw (ApiError httpStatus.BAD_REQUEST "Refresh token is required")
       end).

Definition google_success (user : IUser.t) (tokens_ : TokenPair) : Response.t :=
  Response.mk httpStatus.OK
    (JObject
       [("success", JBool true);
        ("message", JString "Google authentication successful");
        ("data",
         JObject
           [("user",
             JObject [("id", JString (IUser._id user));
                      ("name", JString (IUser.name user));
                      ("email", JString (IUser.email user));
                      ("role", JString (IUser.role user));
                      ("profilePicture", json_of_option (IUser.profilePicture user));
                      ("authProvider", JString (IUser.authProvider user))]);
            ("tokens",
             JObject [("accessToken", JString (accessToken tokens_));
                      ("refreshToken", JString (refreshToken tokens_))])])]).

Definition date_of_exp (exp : option Z) : option Z :=
  match exp with
  | Some e => Some (e * 1000)
  | None => None
  end.

(** What both Google controllers do once they hold the account. *)
Definition issue_google_session (user : IUser.t) : M Response.t :=
  let* tokens_ := generateTokenPair (IUser._id user) (IUser.email user)
                    (Some (IUser.role user)) in
  let* decoded := verifyRefreshToken (refreshToken tokens_) in
  saveRefreshToken (refreshToken tokens_) (IUser._id user)
    (date_of_exp (JwtPayload.exp decoded)) ;;
  ret (google_success user tokens_).

(** [POST /google/mobile] *)
Definition googleMobileAuth : Handler :=
  fun request =>
    let idToken := Request.body request !! "idToken" in
    if negb (Js.truthy idToken) then
      ret (Response.mk httpStatus.BAD_REQUEST
             (JObject [("success", JBool false);
                       ("message", JString "Google ID token is required")]))
    else
      try_catch
        (let* now := new_Date in
         match google_verifyIdToken (default "" idToken)
                 (process_env !! "GOOGLE_CLIENT_ID") now with
         | Throw e => throw e
         | Ok payload =>
             match payload with
             | Some payload =>
                 if negb (bool_decide (TokenPayload.email_verified payload = Some true))
                 then
                   ret (Response.mk httpStatus.UNAUTHORIZED
                          (JObject [("success", JBool false);
                                    ("message", JString unverified_email_message)]))
                 else
                   let googleData :=
                     GoogleAuthData.mk (TokenPayload.sub payload)
                       (TokenPayload.email payload)
                       (Js.or_else (TokenPayload.name payload)
                          (TokenPayload.email payload))
                       (TokenPayload.picture payload) in
                   logger info ("Google mobile auth attempt for: "
                                +:+ GoogleAuthData.email googleData) None ;;
                   let* user := authenticateGoogleUser googleData in
                   issue_google_session user
             | None =>
                 ret (Response.mk httpStatus.UNAUTHORIZED
                        (JObject [("success", JBool false);
                                  ("message", JString unverified_email_message)]))
             end
         end)
        (fun error_ =>
           logger error "Google mobile auth error:" (Some error_) ;;
           ret (Response.mk httpStatus.UNAUTHORIZED
                  (JObject [("success", JBool false);
                            ("message", JString "Invalid Google ID token");
                            ("error", JString (error_message error_))]))).

(** [GET /google/callback]: passport runs the Google strategy; [done(err)]
    goes to [next(err)], a user goes to the controller as [request.user]. *)
Definition googleCallback (user : option IUser.t) : M Response.t :=
  match user with
  | None =>
      ret (Response.mk httpStatus.UNAUTHORIZED
             (JObject [("success", JBool false);
                       ("message", JString "Authentication failed")]))
  | Some user => issue_google_session user
  end.

Definition google_callback_route (profile : GoogleProfile.t) : M Response.t :=
  let* d := googleVerifyCallback profile in
  match d with
  | done_ok user => try_catch (googleCallback (Some user)) errorHandler
  | done_error e => errorHandler e
  | done_fail =>
      (* not produced by the callback; passport would follow [failureRedirect] *)
      ret (Response.mk 302 JNull)
  end.

End Http.

(** ** A reference platform, on which the model runs

    A token of the reference codec is its claims written out in clear behind
    the key that signed it; [hash] prefixes the password; Google knows two ID
    tokens. The theorems hold for every platform; this one is used to run the
    services on concrete inputs. *)

Module Reference.

Fixpoint split_on (sep : ascii) (cur : string) (s : string) : list string :=
  match s with
  | EmptyString => [cur]
  | String c r =>
      if Ascii.eqb c sep then cur :: split_on sep EmptyString r
      else split_on sep (cur +:+ String c EmptyString) r
  end.

Definition digit_of (c : ascii) : option N :=
  let n := N_of_ascii c in
  if ((48 <=? n) && (n <=? 57))%N then Some (n - 48)%N else None.

Fixpoint parse_digits (acc : N) (s : string) : option N :=
  match s with
  | EmptyString => Some acc
  | String c r =>
      match digit_of c with
      | Some d => parse_digits (10 * acc + d)%N r
      | None => None
      end
  end.

Definition parse_N (s : string) : option N :=
  match s with
  | EmptyString => None
  | _ => parse_digits 0%N s
  end.

Fixpoint print_digits (fuel : nat) (n : N) (acc : string) : string :=
  match fuel with
  | O => acc
  | S fuel' =>
      let acc' := String (ascii_of_N (48 + n mod 10)) acc in
      if (n <? 10)%N then acc' else print_digits fuel' (n / 10)%N acc'
  end.

Definition print_N (n : N) : string := print_digits 40 n EmptyString.

(** The lifetimes the configuration uses, in seconds. *)
Definition seconds_of (expiresIn : string) : N :=
  if String.eqb expiresIn "15m" then 900%N
  else if String.eqb expiresIn "7d" then 604800%N
  else 3600%N.

Definition bar : string := "|".

Definition sign (payload : JwtPayload.t) (secret : string) (o : SignOptions)
    (now : Z) : string :=
  let iat := Z.to_N (now / 1000) in
  String.concat bar
    [secret;
     default "" (JwtPayload.userId payload);
     default "" (JwtPayload.email payload);
     default "" (JwtPayload.role payload);
     print_N iat;
     print_N (iat + seconds_of (sign_expiresIn o))%N;
     sign_issuer o;
     sign_audience o].

Definition field (s : string) : option string :=
  if String.eqb s "" then None else Some s.

Definition verify (token secret : string) (o : VerifyOptions) (now : Z)
  : Outcome JwtPayload.t :=
  match split_on "|"%char EmptyString token with
  | [k; u; e; r; i; x; iss; aud] =>
      if negb (String.eqb k secret)
      then Throw (JsError "JsonWebTokenError" "invalid signature")
      else
        match parse_N i, parse_N x with
        | Some i', Some x' =>
            if (Z.of_N x' <=? now / 1000)
            then Throw (JsError "TokenExpiredError" "jwt expired")
            else if negb (String.eqb aud (verify_audience o))
            then Throw (JsError "JsonWebTokenError" "jwt audience invalid")
            else if negb (String.eqb iss (verify_issuer o))
            then Throw (JsError "JsonWebTokenError" "jwt issuer invalid")
            else Ok (JwtPayload.mk (field u) (field e) (field r)
                       (Some (Z.of_N i')) (Some (Z.of_N x')) (Some iss) (Some aud))
        | _, _ => Throw (JsError "JsonWebTokenError" "jwt malformed")
        end
  | _ => Throw (JsError "JsonWebTokenError" "jwt malformed")
  end.

Definition hash (plaintext : string) : string := "$2b$10$" +:+ plaintext.

Definition compare (candidate digest : string) : bool :=
  String.eqb digest (hash candidate).

Definition verifyIdToken (idToken : string) (aud : option string) (now : Z)
  : Outcome (option TokenPayload.t) :=
  if String.eqb idToken "google-id-token-verified"
  then Ok (Some (TokenPayload.mk "g1" "a@x.com" (Some true) (Some "Ada") None))
  else if String.eqb idToken "google-id-token-unverified"
  then Ok (Some (TokenPayload.mk "g1" "a@x.com" (Some false) (Some "Ada") None))
  else Throw (JsError "Error" "Wrong number of segments in token").

Definition platform : Externals :=
  {| process_env := ∅;
     jwt_sign := sign;
     jwt_verify := verify;
     bcrypt_hash := hash;
     bcrypt_compare := compare;
     google_verifyIdToken := verifyIdToken |}.

(** Documents and stores to run on. *)

Definition ada_id : string := "0000000000000000000000a1".
Definition bob_id : string := "0000000000000000000000b2".

(** A local account with a password. *)
Definition ada : IUser.t :=
  IUser.mk ada_id "Ada" "a@x.com" (Some (hash "secret1")) Role.USER None None
    "local" 1000 1000.

(** An account that came from Google: no password. *)
Definition bob : IUser.t :=
  IUser.mk bob_id "Bob" "b@x.com" None Role.USER (Some "g2") None "google" 2000 2000.

Definition store_of (us : list IUser.t) (ts : gmap string IToken.t) (now : Z)
  : Store :=
  {| users := us; tokens := ts; next_oid := 4096; clock := now |}.

End Reference.

(** ** Reading a run *)

Definition outcome {A} (r : Outcome A * World) : Outcome A := fst r.

(** The store a run leaves behind. *)
Definition final {A} (r : Outcome A * World) : Store := store (snd r).

(** The round trips of a run, in order. *)
Definition round_trips {A} (r : Outcome A * World) : list StoreOp :=
  map fst (trace (snd r)).

(** The account the store answers with for an e-mail address, which the
    services fold to lower case before they ask. *)
Definition account_for (s : Store) (email : string) : option IUser.t :=
  List.find (User.matches (User.ByEmail (Js.toLowerCase email))) (users s).

(** The account the store answers with for an external identity. *)
Definition account_of_google (s : Store) (googleId : string) : option IUser.t :=
  List.find (User.matches (User.ByGoogleId googleId)) (users s).

Definition invalid_credentials : Error :=
  ApiError httpStatus.UNAUTHORIZED "Invalid email or password".

Definition refresh_token_not_found : Error :=
  ApiError httpStatus.NOT_FOUND "Refresh token not found".

Definition google_failure : Error :=
  ApiError httpStatus.INTERNAL_SERVER_ERROR "Failed to authenticate with Google".

(** ** Vocabulary of the properties *)

Section Vocabulary.

Context `{Externals}.

(** The options both verifications pass to [jwt.verify]. *)
Definition jwt_verify_options : VerifyOptions :=
  {| verify_issuer := issuer jwtConfig; verify_audience := audience jwtConfig |}.

(** The two tokens [generateTokenPair] signs at a given time. *)
Definition access_token_at (now : Z) (userId email : string) (role : option string)
  : string :=
  jwt_sign (JwtPayload.mk (Some userId) (Some email) role None None None None)
    (accessSecret jwtConfig)
    {| sign_expiresIn := accessExpiration jwtConfig;
       sign_issuer := issuer jwtConfig;
       sign_audience := audience jwtConfig |} now.

Definition refresh_token_at (now : Z) (userId email : string) (role : option string)
  : string :=
  jwt_sign (JwtPayload.mk (Some userId) (Some email) role None None None None)
    (refreshSecret jwtConfig)
    {| sign_expiresIn := refreshExpiration jwtConfig;
       sign_issuer := issuer jwtConfig;
       sign_audience := audience jwtConfig |} now.

(** The ledger record [refreshAccessToken] writes for the rotated token. *)
Definition rotated_record (now : Z) (user : IUser.t) (role : option string) : IToken.t :=
  IToken.mk (refresh_token_at now (IUser._id user) (IUser.email user) role)
    (Js.toLowerCase (IUser._id user)) (now + seven_days) now.

(** The account [createGoogleUser] builds in a store. *)
Definition new_google_user (g : GoogleAuthData.t) (s : Store) : IUser.t :=
  IUser.mk (ObjectId.generate (next_oid s)) (User.set_name (GoogleAuthData.name g))
    (User.set_email (GoogleAuthData.email g)) None "user"
    (Some (GoogleAuthData.googleId g)) (GoogleAuthData.profilePicture g) "google"
    (clock s) (clock s).

End Vocabulary.

(** The response [errorHandler] sends. *)
Definition error_response (statusCode : Z) (message : string) : Response.t :=
  Response.mk statusCode
    (JObject [("error", JObject [("statusCode", JNumber statusCode);
                                 ("message", JString message)])]).

(** The identity the gate attaches for a payload. *)
Definition identity_of (payload : JwtPayload.t) : AuthUser.t :=
  AuthUser.mk (default "" (JwtPayload.userId payload))
    (default "" (JwtPayload.email payload)) ""
    (default "" (JwtPayload.role payload))
    (getPermissionsForRole (default "" (JwtPayload.role payload))).

(** The world after the JWT strategy has logged its warning. *)
Definition warned (w : World) : World :=
  {| store := store w; pending := pending w; trace := trace w;
     logs := logs w ++ [{| level := warn;
                           message := "JWT authentication failed: Invalid token payload";
                           meta := None |}] |}.


(** ** Scenarios on the reference platform *)

Module Scenario.

#[local] Existing Instance Reference.platform.

Definition at_time (now : Z) (s : Store) : Store :=
  {| users := users s; tokens := tokens s; next_oid := next_oid s; clock := now |}.

(** Two accounts, an empty ledger, five seconds into the epoch. *)
Definition two_accounts : Store := Reference.store_of [Reference.ada; Reference.bob] ∅ 5000.

(** Ada logs in; four seconds later she holds this refresh token. *)
Definition ada_refresh : string :=
  refresh_token_at 5000 Reference.ada_id "a@x.com" (Some "user").

Definition logged_in : Store :=
  at_time 9000 (final (run (authenticateUser "A@x.com" "secret1") two_accounts)).

Definition json_body (k v : string) : Request.t :=
  Request.mk None ∅ {[k := v]} None.


(** Long after the token has expired, its record still in the ledger. *)
Definition long_after : Store := at_time 700000000 logged_in.

(** A Google identity nobody has seen, and the same identity signed up by
    another request between this request's lookups and its insert. *)
Definition carol : GoogleAuthData.t :=
  GoogleAuthData.mk "g3" "c@x.com" "Carol" None.

Definition racing_signup (s : Store) : Store :=
  set_users
    (users s ++ [IUser.mk "0000000000000000000000c3" "Carol" "c@x.com" None Role.USER
                   (Some "g3") None "google" (clock s) (clock s)]) s.

(** Ada signs in with Google for the first time, with the address of her
    local account. *)
Definition ada_google : GoogleAuthData.t :=
  GoogleAuthData.mk "g1" "A@X.com" "Ada L." (Some "https://pic.example/ada.png").

(** The Google identity of Bob, now with the address of Ada. *)
Definition bob_google_moved : GoogleAuthData.t :=
  GoogleAuthData.mk "g2" "a@x.com" "Bob" None.

Definition unverified_profile : GoogleProfile.t :=
  GoogleProfile.mk "g1" "Ada" [{| value := "a@x.com"; verified := false |}] [].


(** Requests to [GET /users/:id] with a bearer token. *)
Definition get_user (token id : string) : Request.t :=
  Request.mk (Some ("Bearer " +:+ token)) {["id" := id]} ∅ None.

Definition ada_access : string :=
  access_token_at 5000 Reference.ada_id "a@x.com" (Some "user").



Definition ada_identity : AuthUser.t :=
  AuthUser.mk Reference.ada_id "a@x.com" "" "user"
    [Permission.GET_PROFILE; Permission.UPDATE_OWN_PROFILE].


(** Ada's account once her Google identity is linked to it. *)
Definition linked_ada : IUser.t :=
  IUser.mk Reference.ada_id "Ada" "a@x.com" (Some (Reference.hash "secret1"))
    Role.USER (Some "g1") (Some "https://pic.example/ada.png") "local" 1000 5000.

End Scenario.

(** ** The rest of the models, services, controllers and routes *)

(** A round trip for which the trace has no name ([find], [deleteMany],
    [findByIdAndDelete]): it runs as [await] does and is not recorded. *)
Definition await_unrecorded {A} (f : Store → Outcome A * Store) : M A :=
  fun w =>
    let s0 := match pending w with
              | [] => store w
              | g :: _ => g (store w)
              end in
    let '(r, s1) := f s0 in
    (r, {| store := s1; pending := tail (pending w);
           trace := trace w; logs := logs w |}).

Fixpoint remove_first (P : IUser.t → bool) (l : list IUser.t) : list IUser.t :=
  match l with
  | [] => []
  | u :: r => if P u then r else u :: remove_first P r
  end.

(** dtos/user.dto.ts and dtos/auth.dto.ts *)
Module CreateUserDto.
Record t : Type := mk {
  name : string;
  email : string;
  password : string;
  role : option string
}.
End CreateUserDto.

Module UpdateUserDto.
Record t : Type := mk {
  name : option string;
  email : option string
}.
End UpdateUserDto.

Module ChangePasswordDto.
Record t : Type := mk {
  oldPassword : string;
  newPassword : string
}.
End ChangePasswordDto.

(** A string property of a response DTO, as the controllers read it. *)
Definition dto_string (k : string) (dto : Json) : string :=
  match property k dto with
  | Some (JString s) => s
  | _ => ""
  end.

Definition json_of_tokens (tokens_ : TokenPair) : Json :=
  JObject [("accessToken", JString (accessToken tokens_));
           ("refreshToken", JString (refreshToken tokens_))].

Definition z_string_min (v : option string) (n : nat) (msg : string) : list string :=
  match v with
  | None => ["Invalid input: expected string, received undefined"]
  | Some s => if (String.length s <? n)%nat then [msg] else []
  end.

Definition changePasswordSchema (req : Request.t) : list string :=
  z_string_min (Request.body req !! "oldPassword") 1 "Old password is required"
  ++ z_string_min (Request.body req !! "newPassword") 6
       "New password must be at least 6 characters".

Section MoreServices.

Context `{Externals}.

(** *** More operations of the models *)

(** [User.find()] *)
Definition User_find : M (list IUser.t) :=
  await_unrecorded (fun s => (Ok (users s), s)).

(** [User.findByIdAndDelete(id)] *)
Definition User_findByIdAndDelete (id : string) : M (option IUser.t) :=
  match ObjectId.cast id with
  | None => throw (CastError "_id" id)
  | Some o =>
      await_unrecorded (fun s =>
        match List.find (User.has_id o) (users s) with
        | None => (Ok None, s)
        | Some u => (Ok (Some u), set_users (remove_first (User.has_id o) (users s)) s)
        end)
  end.

(** [Token.deleteMany({ userId })] *)
Definition Token_deleteMany (userId : string) : M unit :=
  match ObjectId.cast userId with
  | None => throw (CastError "userId" userId)
  | Some o =>
      await_unrecorded (fun s =>
        (Ok tt,
         set_tokens (filter (λ kv, IToken.userId kv.2 ≠ o) (tokens s)) s))
  end.

(** The update [{ $set: { name, email } }] of [updateUser], under
    [runValidators]: the setters are applied, a key that is [undefined] is
    left out, the validators of the paths that are set are run. *)
Definition set_validators (updateData : UpdateUserDto.t) : list string :=
  match UpdateUserDto.name updateData with
  | Some n => User.validate_name (User.set_name n)
  | None => []
  end
  ++ match UpdateUserDto.email updateData with
     | Some e => User.validate_email (User.set_email e)
     | None => []
     end.

Definition apply_set (updateData : UpdateUserDto.t) (now : Z) (u : IUser.t) : IUser.t :=
  IUser.mk (IUser._id u)
    (match UpdateUserDto.name updateData with
     | Some n => User.set_name n
     | None => IUser.name u
     end)
    (match UpdateUserDto.email updateData with
     | Some e => User.set_email e
     | None => IUser.email u
     end)
    (IUser.password u) (IUser.role u) (IUser.googleId u) (IUser.profilePicture u)
    (IUser.authProvider u) (IUser.createdAt u) now.

(** [User.findByIdAndUpdate(id, { $set: updateData },
    { new: true, runValidators: true })] *)
Definition User_findByIdAndUpdate_set (id : string) (updateData : UpdateUserDto.t)
  : M (option IUser.t) :=
  match ObjectId.cast id with
  | None => throw (CastError "_id" id)
  | Some o =>
      match set_validators updateData with
      | [] =>
          let* now := new_Date in
          await (UserFindByIdAndUpdate id) (fun s =>
            match List.find (User.has_id o) (users s) with
            | None => (Ok None, s)
            | Some u =>
                let u' := apply_set updateData now u in
                if existsb (fun v => negb (User.has_id o v)
                                     && String.eqb (IUser.email v) (IUser.email u'))
                     (users s)
                then (Throw (MongoServerError 11000 "email"), s)
                else (Ok (Some u'),
                      set_users (User.update_first (User.has_id o) (fun _ => u') (users s)) s)
            end)
      | msgs => throw (ValidationError msgs)
      end
  end.

(** [user.password = newPassword; await user.save()] on a document that was
    loaded: the document is validated; when the assignment changed the path
    ([isModified]), the hook hashes the password and the path is written,
    with the time of modification, to the stored document of that id; when
    it did not, nothing is written. *)
Definition User_save_password (loaded : IUser.t) (newPassword : string) : M IUser.t :=
  let u := User.with_password (Some newPassword) loaded in
  match User.validate u with
  | [] =>
      let* now := new_Date in
      let isModified := negb (bool_decide (IUser.password loaded = Some newPassword)) in
      let doc := if isModified
                 then User.with_timestamps (IUser.createdAt u) now (User.pre_save u)
                 else u in
      await (UserSave (IUser._id u)) (fun s =>
        match List.find (User.has_id (IUser._id u)) (users s) with
        | None =>
            (Throw (JsError "DocumentNotFoundError"
                      ("No document found for query { _id: " +:+ IUser._id u +:+ " }")), s)
        | Some _ =>
            if isModified
            then
              (Ok doc,
               set_users
                 (User.update_first (User.has_id (IUser._id u))
                    (fun stored =>
                       User.with_timestamps (IUser.createdAt stored) now
                         (User.with_password (IUser.password doc) stored))
                    (users s)) s)
            else (Ok doc, s)
        end)
  | msgs => throw (ValidationError msgs)
  end.

(** *** services/auth.service.ts, continued *)


Definition changePassword (userId : string) (data : ChangePasswordDto.t) : M unit :=
  let* user := User.findById (Some userId) in
  match user with
  | None => throw (ApiError httpStatus.NOT_FOUND "User not found")
  | Some user =>
      let isPasswordMatch :=
        User.comparePassword user (ChangePasswordDto.oldPassword data) in
      if negb isPasswordMatch
      then throw (ApiError httpStatus.UNAUTHORIZED "Incorrect old password")
      else
        User_save_password user (ChangePasswordDto.newPassword data) ;;
        ret tt
  end.

(** *** services/user.service.ts, continued *)

Definition userService_createUser (userData : CreateUserDto.t) : M Json :=
  try_catch
    (let* user := User.new_User (CreateUserDto.name userData)
                    (CreateUserDto.email userData)
                    (Some (CreateUserDto.password userData))
                    (CreateUserDto.role userData) None None None in
     let* user := User.save user in
     ret (toUserResponse user))
    (fun error_ =>
       if bool_decide (error_code error_ = Some 11000)
       then throw (ApiError httpStatus.CONFLICT "Email already exists")
       else throw error_).

Definition userService_getAllUsers : M (list Json) :=
  let* users_ := User_find in
  ret (map toUserResponse users_).


Definition userService_updateUser (id : string) (updateData : UpdateUserDto.t)
  : M Json :=
  if negb (ObjectId.isValid id)
  then throw (ApiError httpStatus.BAD_REQUEST "Invalid user ID")
  else
    (if Js.truthy (UpdateUserDto.email updateData)
     then
       let* existingUser :=
         User.findOne (User.ByEmail
                         (Js.toLowerCase (default "" (UpdateUserDto.email updateData)))) in
       match existingUser with
       | Some existingUser =>
           if negb (String.eqb (IUser._id existingUser) id)
           then throw (ApiError httpStatus.CONFLICT "Email already taken")
           else ret tt
       | None => ret tt
       end
     else ret tt) ;;
    let* user := User_findByIdAndUpdate_set id updateData in
    match user with
    | None => throw (ApiError httpStatus.NOT_FOUND "User not found")
    | Some user => ret (toUserResponse user)
    end.

Definition userService_deleteUser (id : string) : M unit :=
  if negb (ObjectId.isValid id)
  then throw (ApiError httpStatus.BAD_REQUEST "Invalid user ID")
  else
    let* user := User_findByIdAndDelete id in
    match user with
    | None => throw (ApiError httpStatus.NOT_FOUND "User not found")
    | Some _ => Token_deleteMany id
    end.

(** *** controllers/auth.controller.ts and controllers/user.controller.ts,
        continued *)

(** [POST /register]: the controller hands [request.body] to [createUser],
    here for a body whose keys are among those of [CreateUserDto]; [validate]
    has checked the body and not replaced it, so a [role] in it arrives. *)
Definition registerUser : Handler :=
  fun request =>
    let body := Request.body request in
    let* user := userService_createUser
                   (CreateUserDto.mk (default "" (body !! "name"))
                      (default "" (body !! "email"))
                      (default "" (body !! "password"))
                      (body !! "role")) in
    let* tokens_ := generateTokenPair (dto_string "id" user) (dto_string "email" user)
                      (Some (dto_string "role" user)) in
    let* now := new_Date in
    let expiresAt := now + seven_days in
    Token.create (refreshToken tokens_) (dto_string "id" user) (Some expiresAt) ;;
    ret (Response.mk httpStatus.CREATED
           (JObject [("user", user); ("tokens", json_of_tokens tokens_)])).


(** [POST /change-password] *)
Definition changePassword_controller : Handler :=
  fun request =>
    match Request.user request with
    | Some u =>
        changePassword (AuthUser.id u)
          (ChangePasswordDto.mk (default "" (Request.body request !! "oldPassword"))
             (default "" (Request.body request !! "newPassword"))) ;;
        ret (Response.mk httpStatus.OK
               (JObject [("message", JString "Password changed successfully")]))
    | None =>
        throw (JsError "TypeError" "Cannot read properties of undefined (reading 'id')")
    end.

Definition change_password_route : Handler :=
  dispatch [authenticate; validate changePasswordSchema] changePassword_controller.


(** *** routes/user.route.ts, continued *)

(** [GET /] *)
Definition get_users_route_with (controller : Handler) : Handler :=
  dispatch [authenticate; requirePermission Permission.GET_USERS] controller.




End MoreServices.

(** ** Vocabulary of the further properties *)

Section MoreVocabulary.

Context `{Externals}.


(** The document [createUser] builds in a store, before it is saved, and
    the document that is stored. *)
Definition new_local_user (userData : CreateUserDto.t) (s : Store) : IUser.t :=
  IUser.mk (ObjectId.generate (next_oid s)) (User.set_name (CreateUserDto.name userData))
    (User.set_email (CreateUserDto.email userData))
    (Some (CreateUserDto.password userData))
    (default Role.USER (CreateUserDto.role userData)) None None "local" 0 0.

Definition stored_local_user (userData : CreateUserDto.t) (s : Store) : IUser.t :=
  User.with_timestamps (clock s) (clock s)
    (User.with_password (Some (bcrypt_hash (CreateUserDto.password userData)))
       (new_local_user userData s)).

End MoreVocabulary.

(** The message of [verifyRefreshToken] for what [jwt.verify] threw. *)
Definition refresh_verification_message (e : Error) : string :=
  if String.eqb (error_name e) "TokenExpiredError" then "Refresh token expired"
  else if String.eqb (error_name e) "JsonWebTokenError" then "Invalid refresh token"
  else "Token verification failed".

(** The accounts of a list are under ids, e-mail addresses and external ids
    that are each unique (the external ids among the accounts that have
    one): what the unique indexes of the collection ask. *)
Definition unique_accounts (l : list IUser.t) : Prop :=
  NoDup (IUser._id <$> l)
  ∧ NoDup (IUser.email <$> l)
  ∧ NoDup (omap IUser.googleId l).

Definition accounts_unique (s : Store) : Prop := unique_accounts (users s).

(** [next()] with the request as it came. *)
Definition passes (mw : Middleware) (req : Request.t) (w : World) : Prop :=
  mw req w = (Ok (next req), w).

(** [next(err)] with an [ApiError] of the given status and message. *)
Definition refuses (mw : Middleware) (req : Request.t) (w : World)
    (statusCode : Z) (message : string) : Prop :=
  mw req w = (Ok (next_error (ApiError statusCode message)), w).

(** ** More scenarios on the reference platform *)

Module Cases.

#[local] Existing Instance Reference.platform.

(** A ledger record that expires before the signature of its token does:
    the lifetime of the signature is configured apart from the seven days of
    the record. *)
Definition short_record : Store :=
  Reference.store_of [Reference.ada; Reference.bob]
    {[Scenario.ada_refresh :=
        IToken.mk Scenario.ada_refresh Reference.ada_id 8000 5000]} 9000.

(** Ada's session outlives her account. *)
Definition orphaned : Store := set_users [Reference.bob] Scenario.logged_in.

(** Ada logs in in the fourth second and again in the fifth; the refresh
    token of the first login is presented in the fifth. *)
Definition earlier_refresh : string :=
  refresh_token_at 4000 Reference.ada_id "a@x.com" (Some "user").

Definition two_sessions : Store :=
  final (run (authenticateUser "a@x.com" "secret1")
           (Scenario.at_time 5000
              (final (run (authenticateUser "a@x.com" "secret1")
                        (Scenario.at_time 4000 Scenario.two_accounts))))).

Definition dan : CreateUserDto.t := CreateUserDto.mk " Dan " "D@x.com" "secret9" None.


Definition stored_dan : IUser.t :=
  IUser.mk "000000000000000000001000" "Dan" "d@x.com"
    (Some (Reference.hash "secret9")) Role.USER None None "local" 5000 5000.

Definition new_password : ChangePasswordDto.t :=
  ChangePasswordDto.mk "secret1" "secret2".

Definition nobody_id : string := "ffffffffffffffffffffffff".

(** The id of Ada, its hexadecimal digits in capitals. *)
Definition ada_id_capitals : string := "0000000000000000000000A1".

Definition own_address : UpdateUserDto.t := UpdateUserDto.mk None (Some "a@x.com").

(** A Google identity whose display name is one letter. *)
Definition one_letter : GoogleAuthData.t :=
  GoogleAuthData.mk "g9" "z@x.com" " Z " None.

(** A registration whose body names a role. *)
Definition mallory_request : Request.t :=
  Request.mk None ∅
    {["name" := "Mallory"; "email" := "m@x.com"; "password" := "secret9";
      "role" := "admin"]} None.


Definition mallory_tokens : TokenPair :=
  {| accessToken := access_token_at 5000 "000000000000000000001000" "m@x.com"
                      (Some "admin");
     refreshToken := refresh_token_at 5000 "000000000000000000001000" "m@x.com"
                       (Some "admin") |}.

(** Requests to [GET /users] and [DELETE /users/:id] with a bearer token. *)
Definition list_users (token : string) : Request.t :=
  Request.mk (Some ("Bearer " +:+ token)) ∅ ∅ None.



End Cases.

(** Running a service symbolically: the monad and the world are unfolded,
    the operations of the models stay. *)
Ltac exec :=
  cbv [run run_against start outcome final round_trips bind ret throw try_catch
       await new_Date logger store pending trace logs tail fst snd].

(** The accounts of a store that is written out, one by one. *)
Ltac each_account Hu :=
  cbn in Hu;
  repeat (apply elem_of_cons in Hu as [->|Hu]);
  [.. | by apply elem_of_nil in Hu].

(** * Properties *)

(** The string primitives on examples. *)

Example toLowerCase_mixed : Js.toLowerCase "Ada@X.Com" = "ada@x.com".
Proof. reflexivity. Qed.

Example trim_both : Js.trim "  a b  " = "a b".
Proof. reflexivity. Qed.

Example matches_email_yes : Js.matches_email "a@x.com" = true.
Proof. reflexivity. Qed.

Example matches_email_no_dot : Js.matches_email "a@xcom" = false.
Proof. reflexivity. Qed.

Example matches_email_short : Js.matches_email "@x.c" = false.
Proof. reflexivity. Qed.

(** ** Lists, ids and the registry *)

Lemma set_tokens_twice (a b : gmap string IToken.t) (s : Store) :
  set_tokens a (set_tokens b s) = set_tokens a s.
Proof. reflexivity. Qed.

Lemma tokens_set_tokens (a : gmap string IToken.t) (s : Store) :
  tokens (set_tokens a s) = a.
Proof. reflexivity. Qed.

Lemma users_set_tokens (a : gmap string IToken.t) (s : Store) :
  users (set_tokens a s) = users s.
Proof. reflexivity. Qed.

Lemma find_app_none {A} (P : A → bool) (l l' : list A) :
  List.find P l = None → List.find P (l ++ l') = List.find P l'.
Proof.
  induction l as [|x l IH]; simpl; [done|].
  destruct (P x); [discriminate | exact IH].
Qed.

Lemma existsb_find_none {A} (P : A → bool) (l : list A) :
  List.find P l = None → existsb P l = false.
Proof.
  induction l as [|x l IH]; simpl; [done|].
  destruct (P x); [discriminate | exact IH].
Qed.

(** Replacing the first document that [Q] selects by one that [P] accepts,
    in a list where [P] accepted none: the replacement is what [P] finds. *)
Lemma find_update_first (P Q : IUser.t → bool) (u u' : IUser.t) (l : list IUser.t) :
  List.find P l = None → List.find Q l = Some u → P u' = true →
  List.find P (User.update_first Q (fun _ => u') l) = Some u'.
Proof.
  induction l as [|x l IH]; simpl; [discriminate|].
  intros HP HQ Hu'. destruct (P x) eqn:HPx; [discriminate|].
  destruct (Q x); simpl.
  - by rewrite Hu'.
  - rewrite HPx. by apply IH.
Qed.

(** With ids that are unique, looking a stored document up by its id finds
    that document. *)
Lemma find_has_id (u : IUser.t) (l : list IUser.t) :
  NoDup (map IUser._id l) → u ∈ l →
  List.find (User.has_id (IUser._id u)) l = Some u.
Proof.
  induction l as [|x l IH]; simpl; intros Hnd Hin.
  - by apply elem_of_nil in Hin.
  - apply NoDup_cons in Hnd as [Hx Hnd]. unfold User.has_id at 1.
    destruct (String.eqb_spec (IUser._id x) (IUser._id u)) as [Heq|Hne].
    + apply elem_of_cons in Hin as [->|Hin]; [done|].
      exfalso. apply Hx. rewrite Heq. apply list_elem_of_fmap. by exists u.
    + apply elem_of_cons in Hin as [->|Hin]; [done|]. by apply IH.
Qed.

Lemma find_elem_of {A} (P : A → bool) (l : list A) (x : A) :
  List.find P l = Some x → x ∈ l ∧ P x = true.
Proof.
  intros Hf. apply find_some in Hf as [Hin HP].
  split; [by apply list_elem_of_In | done].
Qed.

Lemma canonical_cast (id : string) :
  ObjectId.canonical id = true → ObjectId.cast id = Some id.
Proof.
  unfold ObjectId.canonical, ObjectId.cast.
  intros [Hv He]%andb_true_iff. rewrite Hv.
  by apply String.eqb_eq in He as ->.
Qed.

Lemma account_for_None (s : Store) (email : string) :
  account_for s email = None ↔
  ∀ u, u ∈ users s → IUser.email u ≠ User.set_email (Js.toLowerCase email).
Proof.
  unfold account_for. split.
  - intros Hf u Hu Heq. apply list_elem_of_In in Hu.
    apply (find_none _ _ Hf) in Hu. simpl in Hu.
    rewrite Heq, String.eqb_refl in Hu. discriminate.
  - intros Hall. destruct (find _ _) as [u|] eqn:Hf; [|done].
    apply find_elem_of in Hf as [Hin Hm]. simpl in Hm.
    apply String.eqb_eq in Hm. by destruct (Hall u Hin).
Qed.



Lemma unknown_role_no_permissions (role : string) :
  role ∉ ALL_ROLES → getPermissionsForRole role = [].
Proof.
  unfold ALL_ROLES. rewrite !not_elem_of_cons. intros (Ha & Hu & Ht & _).
  unfold getPermissionsForRole, RolePermissions.
  rewrite !lookup_insert_ne by done. by rewrite lookup_empty.
Qed.

Section Properties.

Context `{Externals}.

Lemma generateTokenPair_run userId email role w :
  generateTokenPair userId email role w =
  (Ok {| accessToken := access_token_at (clock (store w)) userId email role;
         refreshToken := refresh_token_at (clock (store w)) userId email role |}, w).
Proof. reflexivity. Qed.

(** What a successful refresh has read, and what it leaves behind. *)
Lemma refreshAccessToken_success t s a :
  outcome (run (refreshAccessToken t) s) = Ok a →
  ∃ payload old user o,
    jwt_verify t (refreshSecret jwtConfig) jwt_verify_options (clock s) = Ok payload
    ∧ tokens s !! t = Some old
    ∧ (IToken.expiresAt old <? clock s) = false
    ∧ (JwtPayload.userId payload ≫= ObjectId.cast) = Some o
    ∧ List.find (User.has_id o) (users s) = Some user
    ∧ let new := refresh_token_at (clock s) (IUser._id user) (IUser.email user)
                   (JwtPayload.role payload) in
      let doc := rotated_record (clock s) user (JwtPayload.role payload) in
      let s2 := set_tokens (delete t (tokens s)) s in
      let s3 := set_tokens (<[new := doc]> (delete t (tokens s))) s in
      a = access_token_at (clock s) (IUser._id user) (IUser.email user)
            (JwtPayload.role payload)
      ∧ delete t (tokens s) !! new = None
      ∧ final (run (refreshAccessToken t) s) = s3
      ∧ trace (snd (run (refreshAccessToken t) s)) =
          [(TokenFindOne t, s); (UserFindById (JwtPayload.userId payload), s);
           (TokenDeleteOne t, s2); (TokenCreate new, s3)].
Proof.
  unfold refreshAccessToken, verifyRefreshToken, Token.findOne, Token.deleteOne.
  exec. fold jwt_verify_options.
  destruct (jwt_verify t _ _ _) as [payload|e] eqn:Hv.
  2:{ destruct (String.eqb (error_name e) "TokenExpiredError");
      [|destruct (String.eqb (error_name e) "JsonWebTokenError")]; discriminate. }
  destruct (tokens s !! t) as [old|] eqn:Hold; [|discriminate].
  destruct (IToken.expiresAt old <? clock s) eqn:Hexp.
  { rewrite Hold. discriminate. }
  unfold User.findById.
  destruct (JwtPayload.userId payload) as [uid|] eqn:Huid.
  2:{ exec. rewrite Hold. discriminate. }
  exec.
  destruct (ObjectId.cast uid) as [o|] eqn:Ho; [|discriminate].
  exec.
  destruct (List.find (User.has_id o) (users s)) as [user|] eqn:Hu.
  2:{ rewrite Hold. discriminate. }
  rewrite generateTokenPair_run. exec. rewrite Hold.
  unfold Token.create.
  destruct (Token.validate _ _ _) eqn:Hval; [|discriminate].
  exec. cbn [tokens set_tokens clock users next_oid].
  destruct (delete t (tokens s) !! _) eqn:Hnew; [discriminate|].
  intros [= <-].
  exists payload, old, user, o. rewrite Huid. cbn. by repeat split.
Qed.

(** Revocation, whatever the verification of the token says. *)
Lemma revokeRefreshToken_outcome t s :
  outcome (run (revokeRefreshToken t) s) =
  match tokens s !! t with
  | Some _ => Ok tt
  | None => Throw refresh_token_not_found
  end.
Proof.
  unfold revokeRefreshToken, verifyRefreshToken, Token.deleteOne. exec.
  destruct (jwt_verify t _ _ _) as [payload|e].
  - destruct (tokens s !! t); reflexivity.
  - destruct (String.eqb (error_name e) "TokenExpiredError");
      [|destruct (String.eqb (error_name e) "JsonWebTokenError")];
      destruct (tokens s !! t); reflexivity.
Qed.

Lemma revokeRefreshToken_final t s :
  tokens (final (run (revokeRefreshToken t) s)) = delete t (tokens s).
Proof.
  unfold revokeRefreshToken, verifyRefreshToken, Token.deleteOne. exec.
  assert (Hnone : tokens s !! t = None → tokens s = delete t (tokens s)).
  { intros Hn. symmetry. by apply delete_id. }
  destruct (jwt_verify t _ _ _) as [payload|e].
  - destruct (tokens s !! t) eqn:Ht; [reflexivity | by apply Hnone].
  - destruct (String.eqb (error_name e) "TokenExpiredError");
      [|destruct (String.eqb (error_name e) "JsonWebTokenError")];
      (destruct (tokens s !! t) eqn:Ht; [reflexivity | by apply Hnone]).
Qed.

Lemma revokeRefreshToken_users t s :
  users (final (run (revokeRefreshToken t) s)) = users s.
Proof.
  unfold revokeRefreshToken, verifyRefreshToken, Token.deleteOne. exec.
  destruct (jwt_verify t _ _ _) as [payload|e].
  - destruct (tokens s !! t); reflexivity.
  - destruct (String.eqb (error_name e) "TokenExpiredError");
      [|destruct (String.eqb (error_name e) "JsonWebTokenError")];
      destruct (tokens s !! t); reflexivity.
Qed.

(** A failed verification leaves its warning in the log. *)
Lemma revokeRefreshToken_warns t s e :
  jwt_verify t (refreshSecret jwtConfig) jwt_verify_options (clock s) = Throw e →
  head (logs (snd (run (revokeRefreshToken t) s))) =
  Some {| level := warn;
          message := "Attempted to revoke invalid/expired refresh token";
          meta := None |}.
Proof.
  unfold revokeRefreshToken, verifyRefreshToken, Token.deleteOne. exec.
  fold jwt_verify_options. intros ->.
  destruct (String.eqb (error_name e) "TokenExpiredError");
    [|destruct (String.eqb (error_name e) "JsonWebTokenError")];
    destruct (tokens s !! t); reflexivity.
Qed.

(** C7. For every email and password, [authenticateUser] fails with one and
    the same error, [invalid_credentials] (401, "Invalid email or
    password"), in each of the three cases: the store holds no account for
    the e-mail address folded to lower case; the account it holds has no
    password digest; the digest does not match the password. No session is
    recorded. *)
Theorem authenticateUser_invalid_credentials email password s :
  account_for s email = None
  ∨ (∃ u, account_for s email = Some u ∧ IUser.password u = None)
  ∨ (∃ u digest, account_for s email = Some u ∧ IUser.password u = Some digest
       ∧ bcrypt_compare password digest = false) →
  outcome (run (authenticateUser email password) s) = Throw invalid_credentials
  ∧ final (run (authenticateUser email password) s) = s.
Proof.
  unfold account_for, authenticateUser, User.findOne.
  intros [Hnone | [(u & Hu & Hp) | (u & d & Hu & Hp & Hc)]]; exec;
    rewrite ?Hnone, ?Hu.
  - done.
  - unfold User.comparePassword. by rewrite Hp.
  - unfold User.comparePassword. rewrite Hp.
    destruct (String.eqb d ""); simpl; by rewrite ?Hc.
Qed.

(** C8. For every refresh token [t], [revokeRefreshToken] raises no error
    other than [refresh_token_not_found]: a failed verification of the token
    is swallowed (with a warning in the log), so a token that is expired or
    malformed and still has its ledger record is revoked, the record being
    deleted. It fails with [refresh_token_not_found] exactly when the ledger
    holds no record for [t], that is when the delete removes none. *)
Theorem revokeRefreshToken_best_effort t s :
  let r := run (revokeRefreshToken t) s in
  (∀ e, outcome r = Throw e → e = refresh_token_not_found)
  ∧ (∀ e doc,
       jwt_verify t (refreshSecret jwtConfig) jwt_verify_options (clock s) = Throw e →
       tokens s !! t = Some doc →
       outcome r = Ok tt ∧ tokens (final r) !! t = None
       ∧ tokens (final r) = delete t (tokens s)
       ∧ head (logs (snd r))
         = Some {| level := warn;
                   message := "Attempted to revoke invalid/expired refresh token";
                   meta := None |})
  ∧ (outcome r = Throw refresh_token_not_found ↔ tokens s !! t = None)
  ∧ (tokens s !! t = None → tokens (final r) = tokens s).
Proof.
  cbv zeta. rewrite revokeRefreshToken_outcome, revokeRefreshToken_final.
  split; [|split; [|split]].
  - intros e. destruct (tokens s !! t); congruence.
  - intros e doc Hv Hdoc. rewrite Hdoc, lookup_delete_eq.
    by rewrite (revokeRefreshToken_warns t s e Hv).
  - split; [|by intros ->].
    destruct (tokens s !! t); [discriminate | done].
  - intros Hn. by apply delete_id.
Qed.


(** C6. During every successful run of [refreshAccessToken], alone on the
    store, the round trips are, in this order: the lookup of the old record,
    the lookup of the user, the delete of the old record, the insert of the
    new one; the two writes are the delete and then the insert. The store
    between the two writes holds neither the old record nor the new one, and
    the insert is made on that store. *)
Theorem refresh_deletes_before_insert t s a :
  outcome (run (refreshAccessToken t) s) = Ok a →
  ∃ old new doc uid s2 s3,
    tokens s !! t = Some old
    ∧ trace (snd (run (refreshAccessToken t) s)) =
        [(TokenFindOne t, s); (UserFindById uid, s);
         (TokenDeleteOne t, s2); (TokenCreate new, s3)]
    ∧ filter (λ op, is_write op = true) (round_trips (run (refreshAccessToken t) s)) =
        [TokenDeleteOne t; TokenCreate new]
    ∧ tokens s2 = delete t (tokens s)
    ∧ tokens s2 !! t = None
    ∧ tokens s2 !! new = None
    ∧ tokens s3 = <[new := doc]> (tokens s2)
    ∧ final (run (refreshAccessToken t) s) = s3.
Proof.
  intros Hok.
  destruct (refreshAccessToken_success t s a Hok)
    as (payload & old & user & o & _ & Hold & _ & _ & _ & _ & Hnew & Hfinal & Htrace).
  eexists old, _, _, _, _, _. unfold round_trips. rewrite Htrace, Hfinal.
  split; [exact Hold|]. split; [reflexivity|]. split; [reflexivity|].
  rewrite !tokens_set_tokens, lookup_delete_eq. by repeat split.
Qed.


(** The fast path: the external identity is known. One lookup, no write. *)
Lemma authenticateGoogleUser_known g s u :
  account_of_google s (GoogleAuthData.googleId g) = Some u →
  run (authenticateGoogleUser g) s =
  (Ok u,
   {| store := s; pending := [];
      trace := [(UserFindOne "googleId" (GoogleAuthData.googleId g), s)];
      logs := [{| level := info;
                  message := "Google user login: " +:+ IUser.email u;
                  meta := None |}] |}).
Proof.
  unfold account_of_google, authenticateGoogleUser, getUserByGoogleId, User.findOne.
  intros Hu. exec. cbn [User.op_of]. by rewrite Hu.
Qed.

(** The three ways in which the reconciler returns an account. *)
Lemma authenticateGoogleUser_success g s A :
  outcome (run (authenticateGoogleUser g) s) = Ok A →
  let gid := GoogleAuthData.googleId g in
  let s' := final (run (authenticateGoogleUser g) s) in
  (account_of_google s gid = Some A ∧ s' = s)
  ∨ (account_of_google s gid = None
     ∧ ∃ u o u0,
         account_for s (GoogleAuthData.email g) = Some u
         ∧ ObjectId.cast (IUser._id u) = Some o
         ∧ List.find (User.has_id o) (users s) = Some u0
         ∧ A = User.apply_update gid (GoogleAuthData.profilePicture g) (clock s) u0
         ∧ s' = set_users (User.update_first (User.has_id o) (λ _, A) (users s)) s)
  ∨ (account_of_google s gid = None
     ∧ account_for s (GoogleAuthData.email g) = None
     ∧ A = new_google_user g s
     ∧ s' = set_users (users s ++ [A]) (bump_oid s)).
Proof.
  cbv zeta.
  destruct (account_of_google s (GoogleAuthData.googleId g)) as [u|] eqn:Hg.
  { rewrite (authenticateGoogleUser_known g s u Hg). cbn. intros [= ->]. by left. }
  intros Hok. right. revert Hg Hok.
  unfold account_of_google, account_for, authenticateGoogleUser, getUserByGoogleId,
    getUserByEmailInternal, linkGoogleAccount, createGoogleUser, User.findOne.
  intros Hg. exec. rewrite Hg.
  destruct (List.find (User.matches (User.ByEmail _)) (users s)) as [u|] eqn:He.
  - unfold User.findByIdAndUpdate.
    destruct (ObjectId.cast (IUser._id u)) as [o|] eqn:Ho; [|exec; discriminate].
    exec.
    destruct (List.find (User.has_id o) (users s)) as [u0|] eqn:Hu0; [|exec; discriminate].
    destruct (existsb _ (users s)); [exec; discriminate|].
    intros [= <-]. left. split; [done|]. by exists u, o, u0.
  - unfold User.new_User, User.save. exec.
    destruct (User.validate _) eqn:Hval.
    2:{ destruct (bool_decide _); discriminate. }
    exec. cbn [users set_users bump_oid clock next_oid tokens].
    destruct (User.duplicate_key _ (users s)).
    { cbn. discriminate. }
    intros [= <-]. by right.
Qed.

Lemma existsb_and_find_none {A} (P Q : A → bool) (l : list A) :
  List.find P l = None → existsb (λ v, Q v && P v) l = false.
Proof.
  induction l as [|x l IH]; simpl; [done|].
  destruct (P x); [discriminate|]. intros Hf.
  by rewrite andb_false_r, IH.
Qed.

Lemma update_first_other (Q : IUser.t → bool) (u' u : IUser.t) (l : list IUser.t) :
  u ∈ l → Q u = false → u ∈ User.update_first Q (λ _, u') l.
Proof.
  induction l as [|x l IH]; simpl; intros Hin HQ; [done|].
  apply elem_of_cons in Hin as [->|Hin].
  - rewrite HQ. apply elem_of_cons. by left.
  - destruct (Q x); apply elem_of_cons; right; [done | by apply IH].
Qed.

(** The linking path: the external identity is unknown, the e-mail address
    is known. *)
Lemma authenticateGoogleUser_links g s u o u0 :
  account_of_google s (GoogleAuthData.googleId g) = None →
  account_for s (GoogleAuthData.email g) = Some u →
  ObjectId.cast (IUser._id u) = Some o →
  List.find (User.has_id o) (users s) = Some u0 →
  let A := User.apply_update (GoogleAuthData.googleId g)
             (GoogleAuthData.profilePicture g) (clock s) u0 in
  outcome (run (authenticateGoogleUser g) s) = Ok A
  ∧ final (run (authenticateGoogleUser g) s) =
      set_users (User.update_first (User.has_id o) (λ _, A) (users s)) s.
Proof.
  unfold account_of_google, account_for, authenticateGoogleUser, getUserByGoogleId,
    getUserByEmailInternal, linkGoogleAccount, User.findOne, User.findByIdAndUpdate.
  intros Hg He Ho Hu0. exec. rewrite Hg, He, Ho. exec. rewrite Hu0.
  rewrite (existsb_and_find_none
             (λ v, bool_decide (IUser.googleId v = Some (GoogleAuthData.googleId g)))
             (λ v, negb (User.has_id o v)) (users s) Hg).
  done.
Qed.

(** C4. The reconciler is idempotent. For every external identity [g]
    (verified by the caller), if [authenticateGoogleUser g] returns the
    account [A], then the lookup by external id answers [A] in the store
    the call leaves, and a second call, then or later as long as the
    accounts are those the first call left, returns [A] again, the same
    document with the same id and not a field changed, leaves the store as
    it found it, and makes one round trip, that lookup: the lookup by
    e-mail address, the link and the insert are not reached. *)
Theorem authenticateGoogleUser_idempotent g s A :
  outcome (run (authenticateGoogleUser g) s) = Ok A →
  let s1 := final (run (authenticateGoogleUser g) s) in
  account_of_google s1 (GoogleAuthData.googleId g) = Some A
  ∧ ∀ later, users later = users s1 →
      let again := run (authenticateGoogleUser g) later in
      outcome again = Ok A
      ∧ final again = later
      ∧ round_trips again = [UserFindOne "googleId" (GoogleAuthData.googleId g)]
      ∧ filter (λ op, is_write op = true) (round_trips again) = [].
Proof.
  intros Hok. cbv zeta.
  assert (Hknown : account_of_google (final (run (authenticateGoogleUser g) s))
                     (GoogleAuthData.googleId g) = Some A).
  { destruct (authenticateGoogleUser_success g s A Hok)
      as [[Hg ->] | [(Hg & u & o & u0 & He & Ho & Hu0 & HA & ->)
                    | (Hg & He & HA & ->)]].
    - exact Hg.
    - unfold account_of_google in *. cbn [users set_users].
      apply (find_update_first _ _ u0); [done | done |].
      rewrite HA. cbn. by apply bool_decide_eq_true.
    - unfold account_of_google in *. cbn [users set_users bump_oid].
      rewrite (find_app_none _ _ _ Hg). subst A. cbn.
      by rewrite bool_decide_eq_true_2. }
  split; [exact Hknown|]. intros later Hlater.
  assert (Hlater' : account_of_google later (GoogleAuthData.googleId g) = Some A).
  { unfold account_of_google in *. by rewrite Hlater. }
  rewrite (authenticateGoogleUser_known g later A Hlater'). by repeat split.
Qed.

(** C5, as amended. Account linking is frame-preserving. Let the store hold
    unique, well-formed ids, no account for the external identity of [g],
    and for the e-mail address of [g] the account [A], which has no external
    identity. Then [authenticateGoogleUser g] returns [A] with its id, role,
    e-mail address, password digest, name, provider and creation time as
    they were; the external identity is now that of [g], the profile picture
    is that of [g] where [g] has one and as it was otherwise, and the time
    of modification is now. In the store that account is replaced by the
    returned one, every other account is as it was, and so is the ledger. *)
Theorem linking_preserves_account g s A :
  NoDup (map IUser._id (users s)) →
  ObjectId.canonical (IUser._id A) = true →
  account_of_google s (GoogleAuthData.googleId g) = None →
  account_for s (GoogleAuthData.email g) = Some A →
  IUser.googleId A = None →
  let r := run (authenticateGoogleUser g) s in
  ∃ A',
    outcome r = Ok A'
    ∧ IUser._id A' = IUser._id A
    ∧ IUser.role A' = IUser.role A
    ∧ IUser.email A' = IUser.email A
    ∧ IUser.password A' = IUser.password A
    ∧ IUser.name A' = IUser.name A
    ∧ IUser.authProvider A' = IUser.authProvider A
    ∧ IUser.createdAt A' = IUser.createdAt A
    ∧ IUser.googleId A' = Some (GoogleAuthData.googleId g)
    ∧ IUser.profilePicture A' =
        match GoogleAuthData.profilePicture g with
        | Some p => Some p
        | None => IUser.profilePicture A
        end
    ∧ IUser.updatedAt A' = clock s
    ∧ users (final r) = User.update_first (User.has_id (IUser._id A)) (λ _, A') (users s)
    ∧ (∀ u, u ∈ users s → IUser._id u ≠ IUser._id A → u ∈ users (final r))
    ∧ tokens (final r) = tokens s.
Proof.
  intros Hnd Hcan Hg He _. cbv zeta.
  assert (HA : A ∈ users s) by (apply (find_elem_of _ _ _ He)).
  destruct (authenticateGoogleUser_links g s A (IUser._id A) A Hg He
              (canonical_cast _ Hcan) (find_has_id A _ Hnd HA)) as [Hok Hfin].
  eexists. split; [exact Hok|]. rewrite Hfin. cbn.
  repeat split; try done.
  intros u Hu Hne. apply update_first_other; [done|].
  unfold User.has_id. by apply String.eqb_neq.
Qed.

(** C2, as the code has it. Whatever is thrown inside the reconciler, also
    the conflict (409) that [createGoogleUser] raises when its insert meets
    a duplicate external id or e-mail address, [authenticateGoogleUser]
    throws [google_failure], the generic error with status 500; it throws
    nothing else, under every interleaving with other requests. *)
Theorem authenticateGoogleUser_throws_only_500 env g s e :
  outcome (run_against env (authenticateGoogleUser g) s) = Throw e →
  e = google_failure.
Proof.
  unfold authenticateGoogleUser, run_against, outcome, try_catch.
  destruct (bind _ _ _) as [[u|e'] w]; cbn; [discriminate|].
  by intros [= <-].
Qed.





Lemma dispatch_next mw rest h req w req' w' :
  mw req w = (Ok (next req'), w') →
  dispatch (mw :: rest) h req w = dispatch rest h req' w'.
Proof. intros Hmw. cbn [dispatch]. by rewrite Hmw. Qed.

(** [authenticate] on a token that verifies. *)
Lemma authenticate_verified req token payload w :
  fromAuthHeaderAsBearerToken req = Some token →
  jwt_verify token (accessSecret jwtConfig) jwt_verify_options (clock (store w))
    = Ok payload →
  authenticate req w =
  if Js.truthy (JwtPayload.userId payload) && Js.truthy (JwtPayload.email payload)
     && Js.truthy (JwtPayload.role payload)
  then (Ok (next (Request.with_user (identity_of payload) req)), w)
  else (Ok (next_error (ApiError httpStatus.UNAUTHORIZED "Unauthorized")), warned w).
Proof.
  unfold authenticate, JwtStrategy, jwtVerifyCallback. intros -> Hv.
  cbv [bind new_Date ret try_catch logger]. fold jwt_verify_options.
  rewrite Hv. destruct w as [s p t l]; cbn [store pending trace logs].
  destruct (Js.truthy (JwtPayload.userId payload));
    destruct (Js.truthy (JwtPayload.email payload));
    destruct (Js.truthy (JwtPayload.role payload)); reflexivity.
Qed.

(** Whatever the request, [authenticate] lets it pass only with an identity
    read from a verified payload that has the three fields. *)
Lemma authenticate_passes req w req' w' :
  authenticate req w = (Ok (next req'), w') →
  ∃ token payload,
    fromAuthHeaderAsBearerToken req = Some token
    ∧ jwt_verify token (accessSecret jwtConfig) jwt_verify_options
        (clock (store w)) = Ok payload
    ∧ Js.truthy (JwtPayload.userId payload) = true
    ∧ Js.truthy (JwtPayload.email payload) = true
    ∧ Js.truthy (JwtPayload.role payload) = true
    ∧ req' = Request.with_user (identity_of payload) req
    ∧ w' = w.
Proof.
  destruct (fromAuthHeaderAsBearerToken req) as [token|] eqn:Htok.
  2:{ unfold authenticate, JwtStrategy. rewrite Htok. cbv [bind ret]. discriminate. }
  destruct (jwt_verify token (accessSecret jwtConfig) jwt_verify_options
              (clock (store w))) as [payload|e] eqn:Hv.
  - rewrite (authenticate_verified req token payload w Htok Hv).
    destruct (Js.truthy (JwtPayload.userId payload)) eqn:Hu;
      destruct (Js.truthy (JwtPayload.email payload)) eqn:He;
      destruct (Js.truthy (JwtPayload.role payload)) eqn:Hr; cbn; try discriminate.
    intros [= <- <-]. by exists token, payload.
  - unfold authenticate, JwtStrategy. rewrite Htok.
    cbv [bind new_Date ret]. fold jwt_verify_options. rewrite Hv. discriminate.
Qed.



(** [requireOwnership] by itself has no override: it lets the request pass
    exactly when the parameter is the id of the identity. The route
    [GET /:id] does not use it; it combines the comparison with the
    override in its handler. *)
Lemma requireOwnership_passes req w u :
  Request.user req = Some u →
  requireOwnership "id" req w = (Ok (next req), w)
  ↔ Request.params req !! "id" = Some (AuthUser.id u).
Proof.
  intros Hu. unfold requireOwnership. rewrite Hu. cbv [ret].
  destruct (decide (Some (AuthUser.id u) = Request.params req !! "id")) as [Heq|Hne].
  - rewrite bool_decide_eq_true_2 by done. by split.
  - rewrite bool_decide_eq_false_2 by done. split; [discriminate | congruence].
Qed.



End Properties.

(** * The properties on the scenarios *)

Section Scenarios.

#[local] Existing Instance Reference.platform.

Import Scenario.

Example login_issues_ada_refresh :
  outcome (run (authenticateUser "A@x.com" "secret1") two_accounts)
  = Ok {| accessToken := ada_access; refreshToken := ada_refresh |}.
Proof. vm_compute. reflexivity. Qed.



(** Refreshing within the second of the login signs the very token that was
    sent: its record is deleted and written again, and revoking the old
    token afterwards succeeds. *)
Example refresh_within_the_second :
  let s := final (run (authenticateUser "A@x.com" "secret1") two_accounts) in
  let s' := final (run (refreshAccessToken ada_refresh) s) in
  refresh_token_at (clock s) Reference.ada_id "a@x.com" (Some "user") = ada_refresh
  ∧ is_Some (tokens s' !! ada_refresh)
  ∧ outcome (run (revokeRefreshToken ada_refresh) s') = Ok tt.
Proof. cbv zeta. split; [|split]; vm_compute; eauto. Qed.

Lemma refresh_deletes_before_insert_witness :
  let t := ada_refresh in
  let s := logged_in in
  let a := access_token_at 9000 Reference.ada_id "a@x.com" (Some "user") in
  outcome (run (refreshAccessToken t) s) = Ok a
  ∧ ∃ old new doc uid s2 s3,
      tokens s !! t = Some old
      ∧ trace (snd (run (refreshAccessToken t) s)) =
          [(TokenFindOne t, s); (UserFindById uid, s);
           (TokenDeleteOne t, s2); (TokenCreate new, s3)]
      ∧ filter (λ op, is_write op = true) (round_trips (run (refreshAccessToken t) s)) =
          [TokenDeleteOne t; TokenCreate new]
      ∧ tokens s2 = delete t (tokens s)
      ∧ tokens s2 !! t = None
      ∧ tokens s2 !! new = None
      ∧ tokens s3 = <[new := doc]> (tokens s2)
      ∧ final (run (refreshAccessToken t) s) = s3.
Proof.
  cbv zeta.
  assert (Hok : outcome (run (refreshAccessToken ada_refresh) logged_in)
                = Ok (access_token_at 9000 Reference.ada_id "a@x.com" (Some "user")))
    by (vm_compute; reflexivity).
  split; [exact Hok|].
  exact (refresh_deletes_before_insert ada_refresh logged_in _ Hok).
Defined.

(** C2, at the failing input. Carol signs in with Google for the first
    time while another request signs the same identity up: both lookups
    miss, the insert meets the duplicate, [createGoogleUser] throws the
    conflict 409, which the log records, and [authenticateGoogleUser]
    throws the generic 500. *)
Example google_conflict_becomes_500 :
  let r := run_against [id; id; racing_signup] (authenticateGoogleUser carol)
             two_accounts in
  outcome r = Throw (ApiError 500 "Failed to authenticate with Google")
  ∧ meta <$> last (logs (snd r))
    = Some (Some (ApiError 409 "Email already exists"))
  ∧ outcome (run (createGoogleUser carol) (racing_signup two_accounts))
    = Throw (ApiError 409 "Email already exists").
Proof. cbv zeta. split; [|split]; vm_compute; reflexivity. Qed.

Lemma google_conflict_witness :
  ∃ e,
    outcome (run_against [id; id; racing_signup] (authenticateGoogleUser carol)
               two_accounts) = Throw e
    ∧ e = google_failure.
Proof.
  exists (ApiError 500 "Failed to authenticate with Google").
  assert (Hthrow : outcome (run_against [id; id; racing_signup]
                              (authenticateGoogleUser carol) two_accounts)
                   = Throw (ApiError 500 "Failed to authenticate with Google"))
    by (vm_compute; reflexivity).
  split; [exact Hthrow|].
  exact (authenticateGoogleUser_throws_only_500 _ carol two_accounts _ Hthrow).
Defined.


(** The web path ends in [errorHandler], which answers a plain [Error] with
    the status 500. *)
Example unverified_web_response :
  outcome (run (google_callback_route unverified_profile) two_accounts)
  = Ok (error_response 500 "Email not verified by Google").
Proof. vm_compute. reflexivity. Qed.

Lemma idempotent_witness :
  let g := ada_google in
  let s := two_accounts in
  let A := linked_ada in
  outcome (run (authenticateGoogleUser g) s) = Ok A
  ∧ (let s1 := final (run (authenticateGoogleUser g) s) in
     account_of_google s1 (GoogleAuthData.googleId g) = Some A
     ∧ ∀ later, users later = users s1 →
         let again := run (authenticateGoogleUser g) later in
         outcome again = Ok A
         ∧ final again = later
         ∧ round_trips again = [UserFindOne "googleId" (GoogleAuthData.googleId g)]
         ∧ filter (λ op, is_write op = true) (round_trips again) = []).
Proof.
  cbv zeta.
  assert (Hok : outcome (run (authenticateGoogleUser ada_google) two_accounts)
                = Ok linked_ada) by (vm_compute; reflexivity).
  split; [exact Hok|].
  exact (authenticateGoogleUser_idempotent ada_google two_accounts linked_ada Hok).
Defined.

(** The reconciler is idempotent on its third path too: the account it
    creates is the one the second call finds. *)
Example idempotent_after_create :
  let r1 := run (authenticateGoogleUser carol) two_accounts in
  let r2 := run (authenticateGoogleUser carol) (final r1) in
  outcome r1 = Ok (new_google_user carol two_accounts)
  ∧ outcome r2 = outcome r1
  ∧ final r2 = final r1.
Proof. cbv zeta. split; [|split]; vm_compute; reflexivity. Qed.

(** C5, the claim as stated fails. The store holds for the address
    a@x.com the local account of Ada, which has no external identity; the
    Google identity g2, already linked to Bob, arrives with that address.
    The lookup by external id comes first: the reconciler returns the
    account of Bob, of another id and another address, and changes nothing. *)
Lemma linking_counterexample :
  let r := run (authenticateGoogleUser bob_google_moved) two_accounts in
  account_for two_accounts (GoogleAuthData.email bob_google_moved) = Some Reference.ada
  ∧ IUser.googleId Reference.ada = None
  ∧ outcome r = Ok Reference.bob
  ∧ IUser._id Reference.bob ≠ IUser._id Reference.ada
  ∧ IUser.email Reference.bob ≠ IUser.email Reference.ada
  ∧ final r = two_accounts.
Proof.
  cbv zeta. split; [|split; [|split; [|split; [|split]]]];
    try (vm_compute; reflexivity); vm_compute; discriminate.
Qed.

Lemma linking_witness :
  let g := ada_google in
  let s := two_accounts in
  let A := Reference.ada in
  (NoDup (map IUser._id (users s))
   ∧ ObjectId.canonical (IUser._id A) = true
   ∧ account_of_google s (GoogleAuthData.googleId g) = None
   ∧ account_for s (GoogleAuthData.email g) = Some A
   ∧ IUser.googleId A = None)
  ∧ ∃ A',
      outcome (run (authenticateGoogleUser g) s) = Ok A'
      ∧ IUser._id A' = IUser._id A
      ∧ IUser.role A' = IUser.role A
      ∧ IUser.email A' = IUser.email A
      ∧ IUser.password A' = IUser.password A
      ∧ IUser.googleId A' = Some "g1"
      ∧ IUser.profilePicture A' = Some "https://pic.example/ada.png".
Proof.
  cbv zeta.
  assert (Hnd : NoDup (map IUser._id (users two_accounts))).
  { apply (bool_decide_unpack _). vm_compute. exact I. }
  assert (Hcan : ObjectId.canonical (IUser._id Reference.ada) = true)
    by (vm_compute; reflexivity).
  assert (Hg : account_of_google two_accounts (GoogleAuthData.googleId ada_google) = None)
    by (vm_compute; reflexivity).
  assert (He : account_for two_accounts (GoogleAuthData.email ada_google)
               = Some Reference.ada) by (vm_compute; reflexivity).
  assert (Hno : IUser.googleId Reference.ada = None) by reflexivity.
  split; [done|].
  destruct (linking_preserves_account ada_google two_accounts Reference.ada
              Hnd Hcan Hg He Hno)
    as (A' & Hok & Hid & Hrole & Hemail & Hpw & _ & _ & _ & Hgid & Hpic & _).
  exists A'. done.
Defined.

Lemma invalid_credentials_witness :
  outcome (run (authenticateUser "nobody@x.com" "secret1") two_accounts)
  = Throw invalid_credentials
  ∧ outcome (run (authenticateUser "B@x.com" "secret1") two_accounts)
    = Throw invalid_credentials
  ∧ outcome (run (authenticateUser "a@x.com" "Secret1") two_accounts)
    = Throw invalid_credentials.
Proof.
  split; [|split].
  - apply (authenticateUser_invalid_credentials "nobody@x.com" "secret1" two_accounts).
    left. vm_compute. reflexivity.
  - apply (authenticateUser_invalid_credentials "B@x.com" "secret1" two_accounts).
    right. left. exists Reference.bob. split; [vm_compute; reflexivity | reflexivity].
  - apply (authenticateUser_invalid_credentials "a@x.com" "Secret1" two_accounts).
    right. right. exists Reference.ada, (Reference.hash "secret1").
    split; [|split]; vm_compute; reflexivity.
Defined.

Lemma revoke_expired_witness :
  jwt_verify ada_refresh (refreshSecret jwtConfig) jwt_verify_options (clock long_after)
  = Throw (JsError "TokenExpiredError" "jwt expired")
  ∧ is_Some (tokens long_after !! ada_refresh)
  ∧ outcome (run (revokeRefreshToken ada_refresh) long_after) = Ok tt
  ∧ tokens (final (run (revokeRefreshToken ada_refresh) long_after)) !! ada_refresh = None.
Proof.
  assert (Hv : jwt_verify ada_refresh (refreshSecret jwtConfig) jwt_verify_options
                 (clock long_after)
               = Throw (JsError "TokenExpiredError" "jwt expired"))
    by (vm_compute; reflexivity).
  assert (Hdoc : tokens long_after !! ada_refresh
                 = Some (IToken.mk ada_refresh Reference.ada_id 604805000 5000))
    by (vm_compute; reflexivity).
  split; [exact Hv|]. split; [by rewrite Hdoc|].
  destruct (proj1 (proj2 (revokeRefreshToken_best_effort ada_refresh long_after))
              _ _ Hv Hdoc) as (Hok & Hgone & _ & _).
  done.
Defined.




End Scenarios.

(** * Further properties of the services *)

Lemma lower_char_is_hex (c : ascii) : Js.is_hex (Js.lower_char c) = Js.is_hex c.
Proof. destruct c as [[] [] [] [] [] [] [] []]; reflexivity. Qed.




Lemma toLowerCase_length (s : string) : String.length (Js.toLowerCase s) = String.length s.
Proof. induction s as [|c s IH]; cbn; [done|]. by rewrite IH. Qed.

Lemma toLowerCase_all_hex (s : string) : Js.all_hex (Js.toLowerCase s) = Js.all_hex s.
Proof. induction s as [|c s IH]; cbn; [done|]. by rewrite lower_char_is_hex, IH. Qed.




Lemma isValid_toLowerCase (id : string) :
  ObjectId.isValid (Js.toLowerCase id) = ObjectId.isValid id.
Proof.
  unfold ObjectId.isValid. by rewrite toLowerCase_length, toLowerCase_all_hex.
Qed.


Lemma has_id_eq (o : string) (u : IUser.t) : User.has_id o u = true → IUser._id u = o.
Proof. unfold User.has_id. apply String.eqb_eq. Qed.

Lemma find_has_id_id (o : string) (l : list IUser.t) (u : IUser.t) :
  List.find (User.has_id o) l = Some u → IUser._id u = o.
Proof. intros Hf. apply find_elem_of in Hf as [_ Hid]. by apply has_id_eq. Qed.

Lemma existsb_false_elem_of {A} (P : A → bool) (l : list A) :
  existsb P l = false ↔ ∀ x, x ∈ l → P x = false.
Proof.
  induction l as [|x l IH]; simpl.
  - split; [intros _ y Hy; by apply elem_of_nil in Hy | done].
  - rewrite orb_false_iff, IH. split.
    + intros [Hx Hl] y [->|Hy]%elem_of_cons; auto.
    + intros Hall. split; [apply Hall; left | intros y Hy; apply Hall; by right].
Qed.

Lemma find_update_first_self (P : IUser.t → bool) (f : IUser.t → IUser.t)
    (l : list IUser.t) (u : IUser.t) :
  List.find P l = Some u → P (f u) = true →
  List.find P (User.update_first P f l) = Some (f u).
Proof.
  induction l as [|x l IH]; simpl; [discriminate|].
  destruct (P x) eqn:HPx.
  - intros [= ->] Hf. simpl. by rewrite Hf.
  - intros Hfind Hf. simpl. rewrite HPx. by apply IH.
Qed.

Lemma update_first_found (P : IUser.t → bool) (f : IUser.t → IUser.t)
    (l : list IUser.t) (u : IUser.t) :
  List.find P l = Some u →
  User.update_first P f l = User.update_first P (fun _ => f u) l.
Proof.
  induction l as [|x l IH]; simpl; [done|].
  destruct (P x); [by intros [= ->] | intros Hf; by rewrite IH].
Qed.

Lemma update_first_fmap {B} (g : IUser.t → B) (P : IUser.t → bool)
    (f : IUser.t → IUser.t) (l : list IUser.t) :
  (∀ x, g (f x) = g x) → g <$> User.update_first P f l = g <$> l.
Proof.
  intros Hg. induction l as [|x l IH]; simpl; [done|].
  destruct (P x); rewrite !fmap_cons; [by rewrite Hg | by rewrite IH].
Qed.

Lemma validate_password_nonempty (authProvider p : string) :
  User.validate_password authProvider (Some p) = [] → p ≠ "".
Proof. intros Hv ->. unfold User.validate_password in Hv. by destruct (_ && _). Qed.

Lemma validate_password_of (u : IUser.t) :
  User.validate u = [] →
  User.validate_password (IUser.authProvider u) (IUser.password u) = [].
Proof.
  unfold User.validate. intros Hv.
  apply app_eq_nil in Hv as [_ Hv]. apply app_eq_nil in Hv as [_ Hv].
  by apply app_eq_nil in Hv as [Hv _].
Qed.




Section Further.

Context `{Externals}.


(** ** Refreshing, validating and revoking a refresh token *)

Lemma refresh_no_record t s :
  tokens s !! t = None →
  ∃ message,
    outcome (run (refreshAccessToken t) s)
    = Throw (ApiError httpStatus.UNAUTHORIZED message)
    ∧ final (run (refreshAccessToken t) s) = s.
Proof.
  unfold refreshAccessToken, verifyRefreshToken, Token.findOne. exec.
  intros Hn. destruct (jwt_verify t _ _ _) as [payload|e].
  - rewrite Hn. eexists. split; reflexivity.
  - destruct (String.eqb (error_name e) "TokenExpiredError");
      [|destruct (String.eqb (error_name e) "JsonWebTokenError")];
      eexists; split; reflexivity.
Qed.

(** X1. A refresh token of which the ledger has no record is refused with
    status 401, whatever its signature says, and the store stays as it
    was. *)
Theorem refresh_needs_ledger_record t s :
  tokens s !! t = None →
  ∃ message,
    outcome (run (refreshAccessToken t) s)
    = Throw (ApiError httpStatus.UNAUTHORIZED message)
    ∧ final (run (refreshAccessToken t) s) = s
    ∧ ∀ op s', (op, s') ∈ trace (snd (run (refreshAccessToken t) s)) →
               is_write op = false.
Proof.
  intros Hn. destruct (refresh_no_record t s Hn) as (m & Ho & Hf).
  exists m. split; [done|]. split; [done|]. revert Hn. clear.
  unfold refreshAccessToken, verifyRefreshToken, Token.findOne. exec.
  intros Hn. destruct (jwt_verify t _ _ _) as [payload|e].
  - rewrite Hn. cbn. intros op s' Hin. apply list_elem_of_singleton in Hin.
    by injection Hin as -> ->.
  - destruct (String.eqb (error_name e) "TokenExpiredError");
      [|destruct (String.eqb (error_name e) "JsonWebTokenError")];
      cbn; intros op s' Hin; by apply elem_of_nil in Hin.
Qed.


(** X3. A token that fails [jwt.verify] is refused before the database is
    asked anything: no round trip is made, nothing is logged, the store is
    unchanged, and the error is a 401 whose message depends only on the
    name of what [jwt.verify] threw. *)
Theorem refresh_rejects_unverified_offline t s e :
  jwt_verify t (refreshSecret jwtConfig) jwt_verify_options (clock s) = Throw e →
  run (refreshAccessToken t) s
  = (Throw (ApiError httpStatus.UNAUTHORIZED (refresh_verification_message e)),
     start [] s).
Proof.
  unfold refreshAccessToken, verifyRefreshToken, refresh_verification_message.
  exec. fold jwt_verify_options. intros ->.
  destruct (String.eqb (error_name e) "TokenExpiredError");
    [|destruct (String.eqb (error_name e) "JsonWebTokenError")]; reflexivity.
Qed.

(** X4. A verified token whose ledger record has passed its [expiresAt] is
    refused with 401 [Refresh token expired], and the refusal removes the
    record: only that record leaves the store. *)
Theorem refresh_purges_expired_record t s payload old :
  jwt_verify t (refreshSecret jwtConfig) jwt_verify_options (clock s) = Ok payload →
  tokens s !! t = Some old →
  IToken.expiresAt old < clock s →
  outcome (run (refreshAccessToken t) s)
  = Throw (ApiError httpStatus.UNAUTHORIZED "Refresh token expired")
  ∧ final (run (refreshAccessToken t) s) = set_tokens (delete t (tokens s)) s.
Proof.
  unfold refreshAccessToken, verifyRefreshToken, Token.findOne, Token.deleteOne.
  exec. fold jwt_verify_options. intros -> Hold Hexp. exec. rewrite Hold. exec.
  assert (Hlt : (IToken.expiresAt old <? clock s) = true) by lia.
  rewrite Hlt. exec. rewrite Hold. split; reflexivity.
Qed.

(** X5. A verified, unexpired token whose account is no longer in the store
    is refused with 401 [User not found], and its record is removed from the
    ledger. *)
Theorem refresh_of_deleted_account t s payload old uid :
  jwt_verify t (refreshSecret jwtConfig) jwt_verify_options (clock s) = Ok payload →
  tokens s !! t = Some old →
  clock s ≤ IToken.expiresAt old →
  JwtPayload.userId payload = Some uid →
  ObjectId.isValid uid = true →
  (∀ u, u ∈ users s → IUser._id u ≠ Js.toLowerCase uid) →
  outcome (run (refreshAccessToken t) s)
  = Throw (ApiError httpStatus.UNAUTHORIZED "User not found")
  ∧ final (run (refreshAccessToken t) s) = set_tokens (delete t (tokens s)) s.
Proof.
  unfold refreshAccessToken, verifyRefreshToken, Token.findOne, Token.deleteOne.
  exec. fold jwt_verify_options. intros -> Hold Hexp Huid Hvalid Hnone.
  exec. rewrite Hold. exec.
  assert (Hlt : (IToken.expiresAt old <? clock s) = false) by lia.
  rewrite Hlt. unfold User.findById, ObjectId.cast. rewrite Huid, Hvalid. exec.
  assert (Hf : List.find (User.has_id (Js.toLowerCase uid)) (users s) = None).
  { destruct (List.find _ _) as [u|] eqn:Hf; [|done].
    apply find_elem_of in Hf as [Hin Hid]. apply has_id_eq in Hid.
    by destruct (Hnone u Hin). }
  rewrite Hf. exec. rewrite Hold. split; reflexivity.
Qed.


(** X7. Rotation is not atomic. When the token that a refresh would issue is
    already in the ledger (a login or a refresh of the same account in the
    same second of the clock), the insert fails on the unique index with
    error 11000 after the presented token has been deleted: the caller is
    left without a usable refresh token. *)
Theorem refresh_collision_loses_session t s payload old uid user other :
  jwt_verify t (refreshSecret jwtConfig) jwt_verify_options (clock s) = Ok payload →
  tokens s !! t = Some old →
  clock s ≤ IToken.expiresAt old →
  JwtPayload.userId payload = Some uid →
  ObjectId.isValid uid = true →
  List.find (User.has_id (Js.toLowerCase uid)) (users s) = Some user →
  let new := refresh_token_at (clock s) (IUser._id user) (IUser.email user)
               (JwtPayload.role payload) in
  new ≠ t → new ≠ "" →
  tokens s !! new = Some other →
  outcome (run (refreshAccessToken t) s) = Throw (MongoServerError 11000 "token")
  ∧ final (run (refreshAccessToken t) s) = set_tokens (delete t (tokens s)) s
  ∧ tokens (final (run (refreshAccessToken t) s)) !! t = None.
Proof.
  intros Hv Hold Hexp Huid Hvalid Hfind new Hne Hnonempty Hother.
  assert (Hid : IUser._id user = Js.toLowerCase uid) by by apply find_has_id_id in Hfind.
  revert Hv Hold Hexp Huid Hvalid Hfind Hother.
  unfold refreshAccessToken, verifyRefreshToken, Token.findOne, Token.deleteOne.
  exec. fold jwt_verify_options. intros -> Hold Hexp Huid Hvalid Hfind Hother.
  exec. rewrite Hold. exec.
  assert (Hlt : (IToken.expiresAt old <? clock s) = false) by lia.
  rewrite Hlt. unfold User.findById, ObjectId.cast. rewrite Huid, Hvalid. exec.
  rewrite Hfind. rewrite generateTokenPair_run. exec. rewrite Hold.
  cbn [refreshToken clock set_tokens store]. fold new.
  unfold Token.create, Token.validate.
  assert (Hv' : ObjectId.isValid (IUser._id user) = true).
  { by rewrite Hid, isValid_toLowerCase. }
  rewrite Hv'. apply String.eqb_neq in Hnonempty. rewrite Hnonempty.
  cbn [app]. exec. cbn [tokens set_tokens].
  rewrite lookup_delete_ne by done. rewrite Hother.
  cbn. split; [done|]. split; [done|]. apply lookup_delete_eq.
Qed.

(** ** Logging in *)



(** X9. The login does not distinguish e-mail addresses that differ in the
    case of their letters: the answer and the store it leaves are the
    same. *)
Theorem authenticateUser_ignores_case email1 email2 password s :
  Js.toLowerCase email1 = Js.toLowerCase email2 →
  outcome (run (authenticateUser email1 password) s)
  = outcome (run (authenticateUser email2 password) s)
  ∧ final (run (authenticateUser email1 password) s)
    = final (run (authenticateUser email2 password) s).
Proof.
  unfold authenticateUser, User.findOne. exec. intros ->.
  destruct (List.find _ (users s)) as [user|]; [|split; reflexivity].
  destruct (User.comparePassword user password); cbn [negb]; [|split; reflexivity].
  rewrite generateTokenPair_run. exec.
  unfold Token.create. destruct (Token.validate _ _ _); [|split; reflexivity].
  exec. destruct (tokens s !! _); split; reflexivity.
Qed.


(** ** Changing a password *)

(** X11. [changePassword] with an old password that the stored digest does
    not match is answered 401 [Incorrect old password] and writes nothing.
    An account without a password (one that Google created) is always in
    this case: it cannot be given a password this way. *)
Theorem changePassword_wrong_old_password userId data s user :
  ObjectId.isValid userId = true →
  List.find (User.has_id (Js.toLowerCase userId)) (users s) = Some user →
  IUser.password user = None
  ∨ User.comparePassword user (ChangePasswordDto.oldPassword data) = false →
  outcome (run (changePassword userId data) s)
  = Throw (ApiError httpStatus.UNAUTHORIZED "Incorrect old password")
  ∧ final (run (changePassword userId data) s) = s.
Proof.
  intros Hvalid Hfind Hpw.
  assert (Hc : User.comparePassword user (ChangePasswordDto.oldPassword data) = false).
  { destruct Hpw as [Hnone|Hc]; [|done]. unfold User.comparePassword. by rewrite Hnone. }
  unfold changePassword, User.findById, ObjectId.cast. rewrite Hvalid. exec.
  rewrite Hfind, Hc. split; reflexivity.
Qed.

(** X12. [changePassword] with the right old password and a new one that the
    schema accepts (and that is not, letter for letter, the stored digest)
    stores the hash of the new password and the time of the change in the
    account of that id, and nothing else: every other field and every other
    account are as before, and so is the ledger, so the refresh tokens issued
    under the old password stay usable. *)
Theorem changePassword_replaces_digest userId data s user :
  ObjectId.isValid userId = true →
  List.find (User.has_id (Js.toLowerCase userId)) (users s) = Some user →
  User.comparePassword user (ChangePasswordDto.oldPassword data) = true →
  User.validate
    (User.with_password (Some (ChangePasswordDto.newPassword data)) user) = [] →
  IUser.password user ≠ Some (ChangePasswordDto.newPassword data) →
  let changed :=
    User.with_timestamps (IUser.createdAt user) (clock s)
      (User.with_password (Some (bcrypt_hash (ChangePasswordDto.newPassword data)))
         user) in
  outcome (run (changePassword userId data) s) = Ok tt
  ∧ final (run (changePassword userId data) s)
    = set_users
        (User.update_first (User.has_id (Js.toLowerCase userId)) (fun _ => changed)
           (users s)) s
  ∧ tokens (final (run (changePassword userId data) s)) = tokens s.
Proof.
  intros Hvalid Hfind Hc Hval Hmod changed.
  assert (Hid : IUser._id user = Js.toLowerCase userId) by by apply find_has_id_id in Hfind.
  assert (Hne : ChangePasswordDto.newPassword data ≠ "").
  { apply validate_password_of in Hval. by apply validate_password_nonempty in Hval. }
  apply String.eqb_neq in Hne.
  assert (Hrun : outcome (run (changePassword userId data) s) = Ok tt
                 ∧ final (run (changePassword userId data) s)
                   = set_users
                       (User.update_first (User.has_id (Js.toLowerCase userId))
                          (fun _ => changed) (users s)) s).
  { unfold changePassword, User.findById, ObjectId.cast. rewrite Hvalid. exec.
    rewrite Hfind, Hc. cbn [negb]. unfold User_save_password. rewrite Hval. exec.
    rewrite bool_decide_eq_false_2 by done. cbn [negb].
    cbn [IUser._id User.with_password]. rewrite Hid, Hfind.
    unfold User.pre_save. cbn [IUser.password User.with_password].
    rewrite Hne. cbn [IUser.password User.with_password IUser.createdAt
                      User.with_timestamps].
    rewrite (update_first_found _ _ _ _ Hfind). split; reflexivity. }
  destruct Hrun as [Ho Hf]. rewrite Ho, Hf. by repeat split.
Qed.

(** ** Creating an account *)


Lemma pre_save_new_local_user (userData : CreateUserDto.t) (s : Store) :
  User.validate (new_local_user userData s) = [] →
  User.with_timestamps (clock s) (clock s) (User.pre_save (new_local_user userData s))
  = stored_local_user userData s.
Proof.
  intros Hval. apply validate_password_of in Hval.
  cbn [new_local_user IUser.authProvider IUser.password] in Hval.
  apply validate_password_nonempty, String.eqb_neq in Hval.
  unfold stored_local_user, User.pre_save. cbn [IUser.password new_local_user].
  by rewrite Hval.
Qed.

Lemma new_User_local (userData : CreateUserDto.t) (s : Store) :
  IUser.mk (ObjectId.generate (next_oid s)) (User.set_name (CreateUserDto.name userData))
    (User.set_email (CreateUserDto.email userData))
    (Some (CreateUserDto.password userData))
    (default Role.USER (CreateUserDto.role userData)) None None
    (default "local" None) 0 0
  = new_local_user userData s.
Proof. reflexivity. Qed.


(** X14. [createUser] with data the schema accepts and an address no stored
    account has appends one account: with the name trimmed, the address
    trimmed and in lower case, the hash of the password in place of the
    password, the role of the data or [user] when it has none, and the time
    of creation. The DTO it returns is that account's and has no
    [password]. *)
Theorem createUser_stores_digest userData s :
  User.validate (new_local_user userData s) = [] →
  (∀ u, u ∈ users s →
        IUser._id u ≠ ObjectId.generate (next_oid s)
        ∧ IUser.email u ≠ User.set_email (CreateUserDto.email userData)) →
  let created := stored_local_user userData s in
  outcome (run (userService_createUser userData) s) = Ok (toUserResponse created)
  ∧ final (run (userService_createUser userData) s)
    = set_users (users s ++ [created]) (bump_oid s)
  ∧ IUser.password created = Some (bcrypt_hash (CreateUserDto.password userData))
  ∧ IUser.role created = default Role.USER (CreateUserDto.role userData)
  ∧ property "password" (toUserResponse created) = None.
Proof.
  intros Hval Hfresh created.
  assert (Hdup : User.duplicate_key created (users s) = None).
  { unfold User.duplicate_key.
    assert (H1 : existsb (User.has_id (IUser._id created)) (users s) = false).
    { apply existsb_false_elem_of. intros u Hu. apply String.eqb_neq.
      by destruct (Hfresh u Hu). }
    assert (H2 : existsb (fun u => String.eqb (IUser.email u) (IUser.email created))
                   (users s) = false).
    { apply existsb_false_elem_of. intros u Hu. apply String.eqb_neq.
      by destruct (Hfresh u Hu). }
    by rewrite H1, H2. }
  unfold userService_createUser, User.new_User, User.save. exec.
  rewrite new_User_local, Hval. exec.
  cbn [clock bump_oid]. rewrite (pre_save_new_local_user _ _ Hval).
  fold created. cbn [users bump_oid]. rewrite Hdup. by repeat split.
Qed.


(** ** Deleting and updating an account *)

Lemma remove_first_elem_of (P : IUser.t → bool) (l : list IUser.t) (v : IUser.t) :
  v ∈ remove_first P l → v ∈ l.
Proof.
  induction l as [|x l IH]; simpl; [done|].
  destruct (P x); [by right|].
  intros [->|Hv]%elem_of_cons; [by left | right; by apply IH].
Qed.

Lemma remove_first_id (o : string) (l : list IUser.t) (v : IUser.t) :
  NoDup (IUser._id <$> l) → is_Some (List.find (User.has_id o) l) →
  v ∈ remove_first (User.has_id o) l → IUser._id v ≠ o.
Proof.
  induction l as [|x l IH]; simpl; [by intros _ [? [=]]|].
  rewrite NoDup_cons. intros [Hx Hnd].
  destruct (User.has_id o x) eqn:Hox.
  - intros _ Hv Heq. apply has_id_eq in Hox. apply Hx.
    rewrite Hox, <- Heq. apply list_elem_of_fmap. by exists v.
  - intros Hf [->|Hv]%elem_of_cons.
    + intros Heq. unfold User.has_id in Hox. rewrite Heq, String.eqb_refl in Hox.
      discriminate.
    + by apply IH.
Qed.

(** X16. Deleting an account cascades. [deleteUser] with the id of a stored
    account removes that account and every ledger record of that account,
    and leaves the other accounts' records in place; with ids that are
    unique no account of that id remains, and each refresh token the account
    held is refused from then on. *)
Theorem deleteUser_cascades id s user :
  ObjectId.isValid id = true →
  List.find (User.has_id (Js.toLowerCase id)) (users s) = Some user →
  let s' := final (run (userService_deleteUser id) s) in
  outcome (run (userService_deleteUser id) s) = Ok tt
  ∧ users s' = remove_first (User.has_id (Js.toLowerCase id)) (users s)
  ∧ (∀ t d, tokens s' !! t = Some d ↔
            tokens s !! t = Some d ∧ IToken.userId d ≠ Js.toLowerCase id)
  ∧ (NoDup (IUser._id <$> users s) →
     ∀ v, v ∈ users s' → IUser._id v ≠ Js.toLowerCase id)
  ∧ (∀ t d, tokens s !! t = Some d → IToken.userId d = Js.toLowerCase id →
            ∃ message,
              outcome (run (refreshAccessToken t) s')
              = Throw (ApiError httpStatus.UNAUTHORIZED message)).
Proof.
  intros Hvalid Hfind s'.
  assert (Hrun : outcome (run (userService_deleteUser id) s) = Ok tt
                 ∧ s' = set_tokens
                          (filter (λ kv, IToken.userId kv.2 ≠ Js.toLowerCase id)
                             (tokens s))
                          (set_users
                             (remove_first (User.has_id (Js.toLowerCase id)) (users s))
                             s)).
  { subst s'.
    unfold userService_deleteUser, User_findByIdAndDelete, Token_deleteMany,
      ObjectId.cast, await_unrecorded.
    rewrite Hvalid. cbn [negb]. exec. rewrite Hfind. split; reflexivity. }
  destruct Hrun as [Ho Hs']. split; [done|].
  assert (Htok : ∀ t d, tokens s' !! t = Some d ↔
                        tokens s !! t = Some d ∧ IToken.userId d ≠ Js.toLowerCase id).
  { intros t d. rewrite Hs'. cbn [tokens set_tokens set_users].
    by rewrite map_lookup_filter_Some. }
  split; [by rewrite Hs'|]. split; [done|]. split.
  - intros Hnd v Hv. rewrite Hs' in Hv. cbn [users set_tokens set_users] in Hv.
    by apply (remove_first_id _ (users s)).
  - intros t d Ht Hd.
    destruct (refresh_no_record t s') as (m & Hm & _); [|by exists m].
    destruct (tokens s' !! t) as [d'|] eqn:Ht'; [|done].
    apply Htok in Ht' as [Ht' Hne]. rewrite Ht in Ht'. by injection Ht' as ->.
Qed.

(** X17. [getUserById] and [deleteUser] with an id that no account has
    answer 404 [User not found] when the id is 24 hexadecimal digits and 400
    [Invalid user ID] when it is not, and change nothing: the ledger records
    written for that id stay. *)
Theorem absent_id_changes_nothing id s :
  (∀ u, u ∈ users s → IUser._id u ≠ Js.toLowerCase id) →
  let e := if ObjectId.isValid id
           then ApiError httpStatus.NOT_FOUND "User not found"
           else ApiError httpStatus.BAD_REQUEST "Invalid user ID" in
  outcome (run (userService_getUserById (Some id)) s) = Throw e
  ∧ final (run (userService_getUserById (Some id)) s) = s
  ∧ outcome (run (userService_deleteUser id) s) = Throw e
  ∧ final (run (userService_deleteUser id) s) = s.
Proof.
  intros Hnone e.
  assert (Hf : List.find (User.has_id (Js.toLowerCase id)) (users s) = None).
  { destruct (List.find _ _) as [u|] eqn:Hf; [|done].
    apply find_elem_of in Hf as [Hin Hid]. apply has_id_eq in Hid.
    by destruct (Hnone u Hin). }
  subst e.
  unfold userService_getUserById, userService_deleteUser, User_findByIdAndDelete,
    User.findById, ObjectId.cast, await_unrecorded.
  destruct (ObjectId.isValid id); cbn [negb]; [|by repeat split].
  exec. rewrite Hf. by repeat split.
Qed.

(** X18. [updateUser] with an e-mail address that the store holds for an
    account whose id, as [toString] prints it, is not the string [id] is
    answered 409 [Email already taken], and nothing is written. The
    comparison is between strings: an [id] written with capital hexadecimal
    digits is not the id of the account it denotes. *)
Theorem updateUser_email_taken id updateData s e other :
  ObjectId.isValid id = true →
  UpdateUserDto.email updateData = Some e →
  e ≠ "" →
  account_for s e = Some other →
  IUser._id other ≠ id →
  outcome (run (userService_updateUser id updateData) s)
  = Throw (ApiError httpStatus.CONFLICT "Email already taken")
  ∧ final (run (userService_updateUser id updateData) s) = s.
Proof.
  intros Hvalid He Hne Hacc Hid. revert Hacc.
  unfold userService_updateUser, User.findOne, account_for.
  rewrite Hvalid, He. cbn [negb Js.truthy]. apply String.eqb_neq in Hne.
  rewrite Hne. cbn [negb]. exec. cbn [from_option Datatypes.id]. intros ->.
  apply String.eqb_neq in Hid. rewrite Hid. split; reflexivity.
Qed.

(** ** Signing up through Google *)

(** X19. A Google identity that no account has, with an e-mail address that
    no account has and a display name that, trimmed, is shorter than two
    characters, cannot sign up: the schema rejects the document, the
    reconciler answers 500 [Failed to authenticate with Google], and no
    account is stored. *)
Theorem google_signup_needs_a_name g s :
  account_of_google s (GoogleAuthData.googleId g) = None →
  account_for s (GoogleAuthData.email g) = None →
  (String.length (Js.trim (GoogleAuthData.name g)) < 2)%nat →
  outcome (run (authenticateGoogleUser g) s) = Throw google_failure
  ∧ users (final (run (authenticateGoogleUser g) s)) = users s
  ∧ tokens (final (run (authenticateGoogleUser g) s)) = tokens s.
Proof.
  unfold account_of_google, account_for, authenticateGoogleUser, getUserByGoogleId,
    getUserByEmailInternal, createGoogleUser, User.findOne, User.new_User, User.save.
  intros Hg He Hname. exec. rewrite Hg, He.
  destruct (User.validate _) as [|m ms] eqn:Hval.
  { exfalso. unfold User.validate in Hval. apply app_eq_nil in Hval as [Hval _].
    cbn [IUser.name] in Hval. unfold User.validate_name, User.set_name in Hval.
    destruct (String.eqb _ ""); [discriminate|].
    apply Nat.ltb_lt in Hname. rewrite Hname in Hval. discriminate. }
  destruct (bool_decide _); by repeat split.
Qed.

(** ** What the services keep *)

Lemma unique_accounts_snoc (l : list IUser.t) (doc : IUser.t) :
  unique_accounts l → User.duplicate_key doc l = None → unique_accounts (l ++ [doc]).
Proof.
  intros (Hid & Hemail & Hg). unfold User.duplicate_key.
  destruct (existsb (User.has_id _) l) eqn:H1; [discriminate|].
  destruct (existsb (fun u => String.eqb (IUser.email u) (IUser.email doc)) l) eqn:H2;
    [discriminate|].
  rewrite existsb_false_elem_of in H1, H2. intros H3.
  unfold unique_accounts. rewrite !fmap_app, omap_app, !NoDup_app. cbn [fmap list_fmap].
  repeat split; try done.
  - intros x (u & -> & Hu)%list_elem_of_fmap Hin%list_elem_of_singleton.
    specialize (H1 u Hu). unfold User.has_id in H1.
    rewrite Hin, String.eqb_refl in H1. discriminate.
  - apply NoDup_singleton.
  - intros x (u & -> & Hu)%list_elem_of_fmap Hin%list_elem_of_singleton.
    specialize (H2 u Hu). rewrite Hin, String.eqb_refl in H2. discriminate.
  - apply NoDup_singleton.
  - intros x (u & Hu & Hx)%list_elem_of_omap. cbn.
    destruct (IUser.googleId doc) as [g|] eqn:Hdoc; [|by intros []%elem_of_nil].
    intros [->|[]%elem_of_nil]%elem_of_cons.
    destruct (existsb _ l) eqn:H4; [discriminate|].
    rewrite existsb_false_elem_of in H4. specialize (H4 u Hu).
    by apply bool_decide_eq_false in H4.
  - cbn. destruct (IUser.googleId doc); [apply NoDup_singleton | apply NoDup_nil_2].
Qed.

Lemma update_first_omap {B} (g : IUser.t → option B) (P : IUser.t → bool)
    (f : IUser.t → IUser.t) (l : list IUser.t) :
  (∀ x, g (f x) = g x) → omap g (User.update_first P f l) = omap g l.
Proof.
  intros Hg. induction l as [|x l IH]; [done|]. cbn [User.update_first].
  destruct (P x); cbn [omap list_omap]; [by rewrite Hg | by rewrite IH].
Qed.

Lemma unique_accounts_update (P : IUser.t → bool) (f : IUser.t → IUser.t)
    (l : list IUser.t) :
  (∀ x, IUser._id (f x) = IUser._id x) →
  (∀ x, IUser.email (f x) = IUser.email x) →
  (∀ x, IUser.googleId (f x) = IUser.googleId x) →
  unique_accounts l → unique_accounts (User.update_first P f l).
Proof.
  intros H1 H2 H3 (Hid & Hemail & Hg). unfold unique_accounts.
  by rewrite !update_first_fmap, update_first_omap.
Qed.

Lemma omap_update_first_elem_of (P : IUser.t → bool) (f : IUser.t → IUser.t)
    (gid : string) (l : list IUser.t) (x : string) :
  (∀ u, IUser.googleId (f u) = Some gid) →
  x ∈ omap IUser.googleId (User.update_first P f l) →
  x = gid ∨ x ∈ omap IUser.googleId l.
Proof.
  intros Hf. induction l as [|u l IH]; [by right|]. cbn [User.update_first].
  destruct (P u).
  - cbn [omap list_omap]. rewrite Hf. intros [->|Hx]%elem_of_cons; [by left|].
    right. destruct (IUser.googleId u); [by right | done].
  - cbn [omap list_omap]. destruct (IUser.googleId u) as [g|].
    + intros [->|Hx]%elem_of_cons; [right; by left|].
      destruct (IH Hx); [by left | right; by right].
    + exact IH.
Qed.

(** Linking an external id that no account has keeps the accounts unique. *)
Lemma unique_accounts_link (P : IUser.t → bool) (gid : string)
    (pic : option string) (now : Z) (l : list IUser.t) :
  List.find (User.matches (User.ByGoogleId gid)) l = None →
  unique_accounts l →
  unique_accounts (User.update_first P (User.apply_update gid pic now) l).
Proof.
  intros Hnone (Hid & Hemail & Hg). unfold unique_accounts.
  rewrite !update_first_fmap by done. split; [done|]. split; [done|].
  assert (Hfresh : gid ∉ omap IUser.googleId l).
  { intros (u & Hu & Hx)%list_elem_of_omap. apply list_elem_of_In in Hu.
    apply (find_none _ _ Hnone) in Hu. cbn in Hu.
    by apply bool_decide_eq_false in Hu. }
  clear Hnone Hid Hemail. induction l as [|u l IH]; [done|].
  cbn [User.update_first]. cbn [omap list_omap] in Hg, Hfresh.
  destruct (P u).
  - cbn [omap list_omap User.apply_update IUser.googleId].
    destruct (IUser.googleId u) as [g|].
    + apply NoDup_cons in Hg as [Hg1 Hg2]. apply not_elem_of_cons in Hfresh as [_ Hf].
      by apply NoDup_cons.
    + by apply NoDup_cons.
  - cbn [omap list_omap]. destruct (IUser.googleId u) as [g|].
    + apply NoDup_cons in Hg as [Hg1 Hg2]. apply not_elem_of_cons in Hfresh as [Hne Hf].
      apply NoDup_cons. split; [|by apply IH].
      intros Hin. apply (omap_update_first_elem_of _ _ gid) in Hin as [->|Hin]; done.
    + by apply IH.
Qed.

Lemma unique_accounts_remove_first (P : IUser.t → bool) (l : list IUser.t) :
  unique_accounts l → unique_accounts (remove_first P l).
Proof.
  assert (Hsub : remove_first P l `sublist_of` l).
  { induction l as [|u l IH]; [done|]. cbn [remove_first].
    destruct (P u); [by apply sublist_cons | by apply sublist_skip]. }
  intros (Hid & Hemail & Hg). unfold unique_accounts. repeat split.
  - eapply sublist_NoDup; [exact Hid | by apply fmap_sublist].
  - eapply sublist_NoDup; [exact Hemail | by apply fmap_sublist].
  - eapply sublist_NoDup; [exact Hg|]. clear Hid Hemail Hg.
    induction Hsub as [|x l1 l2 _ IH|x l1 l2 _ IH]; [done| |];
      cbn [omap list_omap]; destruct (IUser.googleId x).
    + by apply sublist_skip.
    + done.
    + by apply sublist_cons.
    + done.
Qed.

Lemma authenticateGoogleUser_final g s :
  let s' := final (run (authenticateGoogleUser g) s) in
  tokens s' = tokens s
  ∧ (users s' = users s
     ∨ (∃ o now,
          account_of_google s (GoogleAuthData.googleId g) = None
          ∧ users s' = User.update_first (User.has_id o)
                         (User.apply_update (GoogleAuthData.googleId g)
                            (GoogleAuthData.profilePicture g) now) (users s))
     ∨ (∃ doc, User.duplicate_key doc (users s) = None ∧ users s' = users s ++ [doc])).
Proof.
  cbv zeta.
  destruct (account_of_google s (GoogleAuthData.googleId g)) as [u|] eqn:Hg.
  { rewrite (authenticateGoogleUser_known g s u Hg). split; [done | by left]. }
  revert Hg.
  unfold account_of_google, authenticateGoogleUser, getUserByGoogleId,
    getUserByEmailInternal, linkGoogleAccount, createGoogleUser, User.findOne.
  intros Hg. exec. rewrite Hg.
  destruct (List.find (User.matches (User.ByEmail _)) (users s)) as [u|] eqn:He.
  - unfold User.findByIdAndUpdate.
    destruct (ObjectId.cast (IUser._id u)) as [o|] eqn:Ho;
      [|exec; split; [done | by left]].
    exec.
    destruct (List.find (User.has_id o) (users s)) as [u0|] eqn:Hu0;
      [|exec; split; [done | by left]].
    destruct (existsb _ (users s)); [exec; split; [done | by left]|].
    cbn. split; [done|]. right. left. exists o, (clock s). split; [done|].
    symmetry. apply (update_first_found _ _ _ _ Hu0).
  - unfold User.new_User, User.save. exec.
    destruct (User.validate _) eqn:Hval.
    2:{ destruct (bool_decide _); (split; [done | by left]). }
    exec. cbn [users set_users bump_oid clock next_oid tokens].
    destruct (User.duplicate_key _ (users s)) eqn:Hdup.
    { cbn. split; [done | by left]. }
    cbn. split; [done|]. right. right. eexists. split; [exact Hdup | done].
Qed.

Lemma createUser_final userData s :
  let s' := final (run (userService_createUser userData) s) in
  tokens s' = tokens s
  ∧ (users s' = users s
     ∨ (∃ doc, User.duplicate_key doc (users s) = None ∧ users s' = users s ++ [doc])).
Proof.
  cbv zeta. unfold userService_createUser, User.new_User, User.save. exec.
  destruct (User.validate _) eqn:Hval.
  2:{ destruct (bool_decide _); (split; [done | by left]). }
  exec. cbn [users set_users bump_oid clock next_oid tokens].
  destruct (User.duplicate_key _ (users s)) eqn:Hdup.
  { cbn. split; [done | by left]. }
  cbn. split; [done|]. right. eexists. split; [exact Hdup | done].
Qed.

Lemma changePassword_final userId data s :
  let s' := final (run (changePassword userId data) s) in
  tokens s' = tokens s
  ∧ (users s' = users s
     ∨ (∃ o now p,
          users s' = User.update_first (User.has_id o)
                       (fun stored =>
                          User.with_timestamps (IUser.createdAt stored) now
                            (User.with_password p stored)) (users s))).
Proof.
  cbv zeta. unfold changePassword, User.findById.
  destruct (ObjectId.cast userId) as [o|]; [|split; [done | by left]].
  exec. destruct (List.find (User.has_id o) (users s)) as [user|];
    [|split; [done | by left]].
  destruct (User.comparePassword user _); cbn [negb]; [|split; [done | by left]].
  unfold User_save_password.
  destruct (User.validate _); [|split; [done | by left]].
  exec. destruct (List.find _ (users s)); [|split; [done | by left]].
  destruct (bool_decide _); cbn [negb]; [split; [done | by left]|].
  cbn. split; [done|]. right. by eexists _, _, _.
Qed.

Lemma deleteUser_final id s :
  let s' := final (run (userService_deleteUser id) s) in
  users s' = users s ∨ ∃ o, users s' = remove_first (User.has_id o) (users s).
Proof.
  cbv zeta. unfold userService_deleteUser, User_findByIdAndDelete, Token_deleteMany,
    ObjectId.cast, await_unrecorded.
  destruct (ObjectId.isValid id); cbn [negb]; [|by left].
  exec. destruct (List.find _ (users s)); [|by left].
  right. by eexists.
Qed.

Lemma refreshAccessToken_users t s :
  users (final (run (refreshAccessToken t) s)) = users s.
Proof.
  unfold refreshAccessToken, verifyRefreshToken, Token.findOne, Token.deleteOne. exec.
  destruct (jwt_verify t _ _ _) as [payload|e].
  2:{ destruct (String.eqb (error_name e) "TokenExpiredError");
      [|destruct (String.eqb (error_name e) "JsonWebTokenError")]; reflexivity. }
  destruct (tokens s !! t) as [old|] eqn:Hold; [|reflexivity].
  destruct (IToken.expiresAt old <? clock s).
  { by rewrite Hold. }
  unfold User.findById.
  destruct (JwtPayload.userId payload) as [uid|].
  2:{ exec. by rewrite Hold. }
  destruct (ObjectId.cast uid) as [o|]; [|reflexivity].
  exec. destruct (List.find (User.has_id o) (users s)) as [user|].
  2:{ by rewrite Hold. }
  rewrite generateTokenPair_run. exec. rewrite Hold.
  unfold Token.create. destruct (Token.validate _ _ _); [|reflexivity].
  exec. cbn [tokens set_tokens]. by destruct (delete t (tokens s) !! _).
Qed.

Lemma authenticateUser_users email password s :
  users (final (run (authenticateUser email password) s)) = users s.
Proof.
  unfold authenticateUser, User.findOne. exec.
  destruct (List.find _ (users s)) as [user|]; [|reflexivity].
  destruct (User.comparePassword user password); cbn [negb]; [|reflexivity].
  rewrite generateTokenPair_run. exec.
  unfold Token.create. destruct (Token.validate _ _ _); [|reflexivity].
  exec. by destruct (tokens s !! _).
Qed.

(** X20. The services keep the accounts unique. From a store in which ids,
    e-mail addresses and external ids are each unique, whatever a sign-in
    through Google, a [createUser], a [changePassword] or a [deleteUser]
    answers, they are unique in the store it leaves; a login, a refresh and
    a logout do not touch the accounts at all. *)
Theorem services_keep_accounts_unique s :
  accounts_unique s →
  (∀ g, accounts_unique (final (run (authenticateGoogleUser g) s)))
  ∧ (∀ userData, accounts_unique (final (run (userService_createUser userData) s)))
  ∧ (∀ userId data, accounts_unique (final (run (changePassword userId data) s)))
  ∧ (∀ id, accounts_unique (final (run (userService_deleteUser id) s)))
  ∧ (∀ email password,
       users (final (run (authenticateUser email password) s)) = users s)
  ∧ (∀ t, users (final (run (refreshAccessToken t) s)) = users s)
  ∧ (∀ t, users (final (run (revokeRefreshToken t) s)) = users s).
Proof.
  unfold accounts_unique. intros Hu.
  split; [|split; [|split; [|split; [|split; [|split]]]]].
  - intros g. destruct (authenticateGoogleUser_final g s)
      as [_ [->|[(o & now & Hg & ->)|(doc & Hdup & ->)]]].
    + done.
    + by apply unique_accounts_link.
    + by apply unique_accounts_snoc.
  - intros userData. destruct (createUser_final userData s)
      as [_ [->|(doc & Hdup & ->)]]; [done | by apply unique_accounts_snoc].
  - intros userId data. destruct (changePassword_final userId data s)
      as [_ [->|(o & now & p & ->)]]; [done | by apply unique_accounts_update].
  - intros id. destruct (deleteUser_final id s) as [->|(o & ->)];
      [done | by apply unique_accounts_remove_first].
  - intros email password. apply authenticateUser_users.
  - intros t. apply refreshAccessToken_users.
  - intros t. apply revokeRefreshToken_users.
Qed.

(** X21. The account services leave the ledger alone: a sign-in through
    Google, a [createUser] and a [changePassword] end, whatever they answer,
    with the refresh tokens that were there; no session is opened or closed
    by them. *)
Theorem account_services_keep_the_ledger s :
  (∀ g, tokens (final (run (authenticateGoogleUser g) s)) = tokens s)
  ∧ (∀ userData, tokens (final (run (userService_createUser userData) s)) = tokens s)
  ∧ (∀ userId data, tokens (final (run (changePassword userId data) s)) = tokens s).
Proof.
  split; [|split].
  - intros g. apply authenticateGoogleUser_final.
  - intros userData. apply createUser_final.
  - intros userId data. apply changePassword_final.
Qed.

(** * Further properties of the middlewares and the routes *)

Lemma includes_elem_of (permissions : list string) (permission : string) :
  includes permissions permission = true ↔ permission ∈ permissions.
Proof. unfold includes. apply bool_decide_eq_true. Qed.


(** X22. The permission gates, in full. Without an identity on the request
    each of them answers 401 [Authentication required]. With one,
    [requirePermission] passes exactly when the identity holds the
    permission, [requireRole] when its role is the role, [requireAnyPermission]
    when it holds one of the list (never, for the empty list),
    [requireAllPermissions] when it holds all of the list (always, for the empty
    list); a gate that does not pass answers 403, and none of them touches the
    world. *)
Theorem permission_gates req w :
  match Request.user req with
  | None =>
      ∀ p r ps,
        refuses (requirePermission p) req w httpStatus.UNAUTHORIZED
          "Authentication required"
        ∧ refuses (requireRole r) req w httpStatus.UNAUTHORIZED
            "Authentication required"
        ∧ refuses (requireAnyPermission ps) req w httpStatus.UNAUTHORIZED
            "Authentication required"
        ∧ refuses (requireAllPermissions ps) req w httpStatus.UNAUTHORIZED
            "Authentication required"
  | Some u =>
      let held := AuthUser.permissions u in
      let decides (mw : Middleware) (P : Prop) :=
        (P → passes mw req w)
        ∧ (¬ P → ∃ message, refuses mw req w httpStatus.FORBIDDEN message) in
      ∀ p r ps,
        decides (requirePermission p) (p ∈ held)
        ∧ decides (requireRole r) (AuthUser.role u = r)
        ∧ decides (requireAnyPermission ps) (∃ q, q ∈ ps ∧ q ∈ held)
        ∧ decides (requireAllPermissions ps) (∀ q, q ∈ ps → q ∈ held)
        ∧ ¬ passes (requireAnyPermission []) req w
        ∧ passes (requireAllPermissions []) req w
  end.
Proof.
  destruct (Request.user req) as [u|] eqn:Hu.
  2:{ intros p r ps. unfold refuses, requirePermission, requireRole,
        requireAnyPermission, requireAllPermissions. rewrite Hu. by repeat split. }
  cbv zeta. intros p r ps.
  unfold passes, refuses, requirePermission, requireRole, requireAnyPermission,
    requireAllPermissions. rewrite Hu. cbv [ret].
  split; [|split; [|split; [|split; [|split]]]].
  - destruct (includes (AuthUser.permissions u) p) eqn:Hp; cbn [negb].
    + split; [done|]. intros Hn. by apply includes_elem_of in Hp.
    + split; [|by eexists]. intros Hin%includes_elem_of. congruence.
  - destruct (String.eqb_spec (AuthUser.role u) r) as [Heq|Hne]; cbn [negb].
    + split; [done|]. by intros Hn.
    + split; [done | by eexists].
  - destruct (existsb (includes (AuthUser.permissions u)) ps) eqn:Hex; cbn [negb].
    + split; [done|]. intros Hn. destruct Hn.
      apply existsb_exists in Hex as (q & Hq & Hin).
      exists q. split; [by apply list_elem_of_In | by apply includes_elem_of].
    + split; [|by eexists]. intros (q & Hq & Hin).
      rewrite existsb_false_elem_of in Hex. specialize (Hex q Hq).
      apply includes_elem_of in Hin. congruence.
  - destruct (forallb (includes (AuthUser.permissions u)) ps) eqn:Hall; cbn [negb].
    + split; [done|]. intros Hn. destruct Hn. intros q Hq.
      rewrite forallb_forall in Hall. apply includes_elem_of, Hall.
      by apply list_elem_of_In.
    + split; [|by eexists]. intros Hq. assert (Ht : forallb (includes (AuthUser.permissions u)) ps = true).
      { apply forallb_forall. intros q Hin%list_elem_of_In.
        by apply includes_elem_of, Hq. }
      congruence.
  - cbn. discriminate.
  - reflexivity.
Qed.


(** X24. [authenticate] answers from the token alone. It never throws and
    never asks the database: the store, the round trips made and the writes
    of other requests still to land are as before, so the access token of an
    account that has been deleted keeps passing until it expires. Every
    refusal is a 401; without a bearer token it is 401 [No auth token]. *)
Theorem authenticate_asks_no_store req w :
  ∃ n w',
    authenticate req w = (Ok n, w')
    ∧ store w' = store w ∧ trace w' = trace w ∧ pending w' = pending w
    ∧ (∀ e, n = next_error e → ∃ message, e = ApiError httpStatus.UNAUTHORIZED message)
    ∧ (fromAuthHeaderAsBearerToken req = None →
       n = next_error (ApiError httpStatus.UNAUTHORIZED "No auth token")).
Proof.
  destruct (fromAuthHeaderAsBearerToken req) as [token|] eqn:Htok.
  2:{ unfold authenticate, JwtStrategy. rewrite Htok. cbv [bind ret].
      eexists _, _. split; [reflexivity|]. repeat split; try done.
      intros e [= <-]. by eexists. }
  destruct (jwt_verify token (accessSecret jwtConfig) jwt_verify_options
              (clock (store w))) as [payload|e] eqn:Hv.
  - rewrite (authenticate_verified req token payload w Htok Hv).
    destruct (_ && _); eexists _, _; (split; [reflexivity|]);
      repeat split; try done.
    intros e [= <-]. by eexists.
  - unfold authenticate, JwtStrategy. rewrite Htok.
    cbv [bind new_Date ret]. fold jwt_verify_options. rewrite Hv.
    eexists _, _. split; [reflexivity|]. repeat split; try done.
    intros e' [= <-]. by eexists.
Qed.







(** X28. [POST /google/mobile] always answers, and with 200, 400 or 401
    only: 400 exactly when the body has no [idToken] (or an empty one), in
    which case nothing is read or written; every failure behind that, the
    500 of the reconciler included, is answered 401. *)
Theorem googleMobileAuth_answers req w :
  ∃ resp w',
    googleMobileAuth req w = (Ok resp, w')
    ∧ (Response.status resp = httpStatus.OK
       ∨ Response.status resp = httpStatus.BAD_REQUEST
       ∨ Response.status resp = httpStatus.UNAUTHORIZED)
    ∧ (Js.truthy (Request.body req !! "idToken") = false →
       Response.status resp = httpStatus.BAD_REQUEST ∧ w' = w)
    ∧ (Js.truthy (Request.body req !! "idToken") = true →
       Response.status resp ≠ httpStatus.BAD_REQUEST).
Proof.
  unfold googleMobileAuth.
  destruct (Js.truthy (Request.body req !! "idToken")) eqn:Htruthy; cbn [negb].
  2:{ eexists _, _. split; [reflexivity|]. cbn. repeat split; auto; try discriminate. }
  cbv [try_catch bind new_Date ret throw logger].
  destruct (google_verifyIdToken _ _ _) as [[payload|]|e].
  - destruct (bool_decide (TokenPayload.email_verified payload = Some true));
      cbn [negb].
    2:{ eexists _, _. split; [reflexivity|]. cbn. repeat split; auto; try discriminate. }
    match goal with
    | |- context [authenticateGoogleUser ?g ?w0] =>
        destruct (authenticateGoogleUser g w0) as [[user|e] w1]
    end.
    2:{ eexists _, _. split; [reflexivity|]. cbn. repeat split; auto; try discriminate. }
    destruct (issue_google_session user w1) as [[resp|e] w2] eqn:Hsession.
    2:{ eexists _, _. split; [reflexivity|]. cbn. repeat split; auto; try discriminate. }
    assert (Hstatus : Response.status resp = httpStatus.OK).
    { revert Hsession. unfold issue_google_session, verifyRefreshToken,
        saveRefreshToken.
      cbv [bind new_Date ret throw]. rewrite generateTokenPair_run.
      destruct (jwt_verify _ _ _ _) as [decoded|e].
      2:{ destruct (String.eqb (error_name e) "TokenExpiredError");
          [|destruct (String.eqb (error_name e) "JsonWebTokenError")]; discriminate. }
      destruct (Token.create _ _ _ _) as [[doc|e] w3]; [|discriminate].
      by intros [= <- _]. }
    eexists _, _. split; [reflexivity|]. rewrite Hstatus.
    repeat split; auto; try discriminate.
  - eexists _, _. split; [reflexivity|]. cbn. repeat split; auto; try discriminate.
  - eexists _, _. split; [reflexivity|]. cbn. repeat split; auto; try discriminate.
Qed.


(** X30. [POST /change-password] acts on the account that the access token
    names. Without a bearer token the answer is 401 and the store is not
    touched; a new password shorter than six characters is answered 400 and
    the store is not touched; and a request that passes both gates runs
    [changePassword] for the id of its identity, with the two passwords of
    the body: nothing in the body chooses the account. *)
Theorem change_password_route_guards req w :
  (fromAuthHeaderAsBearerToken req = None →
   outcome (change_password_route req w) = Ok (error_response 401 "No auth token")
   ∧ store (snd (change_password_route req w)) = store w)
  ∧ (∀ req' w',
       authenticate req w = (Ok (next req'), w') →
       (∀ new, Request.body req !! "newPassword" = Some new →
               (String.length new < 6)%nat →
               ∃ message,
                 outcome (change_password_route req w)
                 = Ok (error_response httpStatus.BAD_REQUEST message)
                 ∧ store (snd (change_password_route req w)) = store w)
       ∧ (∀ u old new,
            Request.user req' = Some u →
            Request.body req !! "oldPassword" = Some old → old ≠ "" →
            Request.body req !! "newPassword" = Some new →
            (6 ≤ String.length new)%nat →
            change_password_route req w
            = try_catch
                (changePassword (AuthUser.id u) (ChangePasswordDto.mk old new) ;;
                 ret (Response.mk httpStatus.OK
                        (JObject [("message",
                                   JString "Password changed successfully")])))
                errorHandler w')).
Proof.
  split.
  - intros Hnone. unfold change_password_route. cbn [dispatch].
    unfold authenticate, JwtStrategy. rewrite Hnone. cbv [bind ret]. cbn.
    by split.
  - intros req' w' Hauth.
    destruct (authenticate_passes req w req' w' Hauth)
      as (token & payload & _ & _ & _ & _ & _ & Hreq & ->).
    assert (Hbody : Request.body req' = Request.body req) by by rewrite Hreq.
    unfold change_password_route. rewrite (dispatch_next _ _ _ _ _ _ _ Hauth).
    split.
    + intros new Hnew Hshort. cbn [dispatch].
      unfold validate, changePasswordSchema, z_string_min. rewrite Hbody, Hnew.
      apply Nat.ltb_lt in Hshort. rewrite Hshort.
      destruct (Request.body req !! "oldPassword") as [old|];
        [destruct (String.length old <? 1)%nat|]; cbn; eexists; by split.
    + intros u old new Hu Hold Hne Hnew Hlong. cbn [dispatch].
      unfold validate, changePasswordSchema, z_string_min.
      rewrite Hbody, Hold, Hnew.
      assert (H1 : (String.length old <? 1)%nat = false).
      { apply Nat.ltb_ge. destruct old; [done | cbn; lia]. }
      assert (H6 : (String.length new <? 6)%nat = false) by by apply Nat.ltb_ge.
      rewrite H1, H6. cbn [app]. cbv [ret].
      unfold changePassword_controller. by rewrite Hu, Hbody, Hold, Hnew.
Qed.

End Further.

(** * The further properties on the scenarios *)

Section FurtherScenarios.

#[local] Existing Instance Reference.platform.

Import Scenario Cases.

Lemma refresh_needs_ledger_record_witness :
  tokens two_accounts !! ada_refresh = None
  ∧ ∃ message,
      outcome (run (refreshAccessToken ada_refresh) two_accounts)
      = Throw (ApiError 401 message)
      ∧ final (run (refreshAccessToken ada_refresh) two_accounts) = two_accounts.
Proof.
  assert (Hn : tokens two_accounts !! ada_refresh = None) by (vm_compute; reflexivity).
  split; [exact Hn|].
  destruct (refresh_needs_ledger_record ada_refresh two_accounts Hn)
    as (m & Ho & Hf & _).
  exists m. split; [exact Ho | exact Hf].
Defined.

Lemma refresh_rejects_unverified_witness :
  run (refreshAccessToken "not-a-token") logged_in
  = (Throw (ApiError 401 "Invalid refresh token"), start [] logged_in).
Proof.
  apply (refresh_rejects_unverified_offline "not-a-token" logged_in
           (JsError "JsonWebTokenError" "jwt malformed")).
  vm_compute. reflexivity.
Defined.

Lemma refresh_purges_expired_witness :
  outcome (run (refreshAccessToken ada_refresh) short_record)
  = Throw (ApiError 401 "Refresh token expired")
  ∧ final (run (refreshAccessToken ada_refresh) short_record)
    = set_tokens (delete ada_refresh (tokens short_record)) short_record.
Proof.
  apply (refresh_purges_expired_record ada_refresh short_record
           (JwtPayload.mk (Some Reference.ada_id) (Some "a@x.com") (Some "user")
              (Some 5) (Some 604805) (Some "boilerplate") (Some "boilerplate-users"))
           (IToken.mk ada_refresh Reference.ada_id 8000 5000)).
  - vm_compute. reflexivity.
  - vm_compute. reflexivity.
  - vm_compute. reflexivity.
Defined.

Lemma refresh_of_deleted_account_witness :
  outcome (run (refreshAccessToken ada_refresh) orphaned)
  = Throw (ApiError 401 "User not found")
  ∧ final (run (refreshAccessToken ada_refresh) orphaned)
    = set_tokens (delete ada_refresh (tokens orphaned)) orphaned.
Proof.
  apply (refresh_of_deleted_account ada_refresh orphaned
           (JwtPayload.mk (Some Reference.ada_id) (Some "a@x.com") (Some "user")
              (Some 5) (Some 604805) (Some "boilerplate") (Some "boilerplate-users"))
           (IToken.mk ada_refresh Reference.ada_id 604805000 5000) Reference.ada_id).
  - vm_compute. reflexivity.
  - vm_compute. reflexivity.
  - vm_compute. discriminate.
  - reflexivity.
  - vm_compute. reflexivity.
  - intros u Hu. each_account Hu. vm_compute. discriminate.
Defined.


Lemma refresh_collision_witness :
  is_Some (tokens two_sessions !! earlier_refresh)
  ∧ outcome (run (refreshAccessToken earlier_refresh) two_sessions)
    = Throw (MongoServerError 11000 "token")
  ∧ tokens (final (run (refreshAccessToken earlier_refresh) two_sessions))
      !! earlier_refresh = None.
Proof.
  assert (Hold : tokens two_sessions !! earlier_refresh
                 = Some (IToken.mk earlier_refresh Reference.ada_id 604804000 4000))
    by (vm_compute; reflexivity).
  split; [by rewrite Hold|].
  destruct (refresh_collision_loses_session earlier_refresh two_sessions
              (JwtPayload.mk (Some Reference.ada_id) (Some "a@x.com") (Some "user")
                 (Some 4) (Some 604804) (Some "boilerplate") (Some "boilerplate-users"))
              (IToken.mk earlier_refresh Reference.ada_id 604804000 4000)
              Reference.ada_id Reference.ada
              (IToken.mk ada_refresh Reference.ada_id 604805000 5000))
    as (Ho & _ & Hgone).
  - vm_compute. reflexivity.
  - exact Hold.
  - vm_compute. discriminate.
  - reflexivity.
  - vm_compute. reflexivity.
  - vm_compute. reflexivity.
  - apply String.eqb_neq. vm_compute. reflexivity.
  - apply String.eqb_neq. vm_compute. reflexivity.
  - vm_compute. reflexivity.
  - split; [exact Ho | exact Hgone].
Defined.


Lemma authenticateUser_ignores_case_witness :
  outcome (run (authenticateUser "A@x.com" "secret1") two_accounts)
  = outcome (run (authenticateUser "a@X.COM" "secret1") two_accounts)
  ∧ final (run (authenticateUser "A@x.com" "secret1") two_accounts)
    = final (run (authenticateUser "a@X.COM" "secret1") two_accounts).
Proof.
  apply (authenticateUser_ignores_case "A@x.com" "a@X.COM" "secret1" two_accounts).
  vm_compute. reflexivity.
Defined.


Lemma changePassword_wrong_old_password_witness :
  outcome (run (changePassword Reference.bob_id new_password) two_accounts)
  = Throw (ApiError 401 "Incorrect old password")
  ∧ final (run (changePassword Reference.bob_id new_password) two_accounts)
    = two_accounts.
Proof.
  apply (changePassword_wrong_old_password Reference.bob_id new_password two_accounts
           Reference.bob).
  - vm_compute. reflexivity.
  - vm_compute. reflexivity.
  - left. reflexivity.
Defined.

Lemma changePassword_replaces_digest_witness :
  let s' := final (run (changePassword Reference.ada_id new_password) logged_in) in
  outcome (run (changePassword Reference.ada_id new_password) logged_in) = Ok tt
  ∧ account_for s' "a@x.com"
    = Some (IUser.mk Reference.ada_id "Ada" "a@x.com" (Some (Reference.hash "secret2"))
              Role.USER None None "local" 1000 9000)
  ∧ tokens s' = tokens logged_in.
Proof.
  cbv zeta.
  destruct (changePassword_replaces_digest Reference.ada_id new_password logged_in
              Reference.ada) as (Ho & Hf & Ht).
  - vm_compute. reflexivity.
  - vm_compute. reflexivity.
  - vm_compute. reflexivity.
  - vm_compute. reflexivity.
  - vm_compute. discriminate.
  - split; [exact Ho|]. split; [|exact Ht]. rewrite Hf. vm_compute. reflexivity.
Defined.


Lemma createUser_stores_digest_witness :
  outcome (run (userService_createUser dan) two_accounts)
  = Ok (toUserResponse stored_dan)
  ∧ users (final (run (userService_createUser dan) two_accounts))
    = users two_accounts ++ [stored_dan]
  ∧ property "password" (toUserResponse stored_dan) = None.
Proof.
  destruct (createUser_stores_digest dan two_accounts) as (Ho & Hf & _ & _ & Hp).
  - vm_compute. reflexivity.
  - intros u Hu. each_account Hu; split; vm_compute; discriminate.
  - split; [exact Ho|]. split; [by rewrite Hf | exact Hp].
Defined.


Lemma deleteUser_cascades_witness :
  let s' := final (run (userService_deleteUser Reference.ada_id) logged_in) in
  is_Some (tokens logged_in !! ada_refresh)
  ∧ outcome (run (userService_deleteUser Reference.ada_id) logged_in) = Ok tt
  ∧ users s' = [Reference.bob]
  ∧ tokens s' !! ada_refresh = None
  ∧ ∃ message,
      outcome (run (refreshAccessToken ada_refresh) s') = Throw (ApiError 401 message).
Proof.
  cbv zeta.
  assert (Hold : tokens logged_in !! ada_refresh
                 = Some (IToken.mk ada_refresh Reference.ada_id 604805000 5000))
    by (vm_compute; reflexivity).
  destruct (deleteUser_cascades Reference.ada_id logged_in Reference.ada)
    as (Ho & Hu & Ht & _ & Hdead).
  - vm_compute. reflexivity.
  - vm_compute. reflexivity.
  - split; [by rewrite Hold|]. split; [exact Ho|]. split; [by rewrite Hu|].
    split; [|by apply (Hdead _ _ Hold)].
    destruct (tokens (final (run (userService_deleteUser Reference.ada_id) logged_in))
                !! ada_refresh) as [d|] eqn:Hd; [|done].
    apply Ht in Hd as [Hd Hne]. rewrite Hold in Hd. injection Hd as <-.
    by destruct Hne.
Defined.

Lemma absent_id_changes_nothing_witness :
  (outcome (run (userService_deleteUser nobody_id) logged_in)
   = Throw (ApiError 404 "User not found")
   ∧ final (run (userService_deleteUser nobody_id) logged_in) = logged_in)
  ∧ (outcome (run (userService_deleteUser "ada") logged_in)
     = Throw (ApiError 400 "Invalid user ID")
     ∧ final (run (userService_deleteUser "ada") logged_in) = logged_in).
Proof.
  split.
  - destruct (absent_id_changes_nothing nobody_id logged_in) as (_ & _ & Ho & Hf).
    + intros u Hu. each_account Hu; vm_compute; discriminate.
    + by split.
  - destruct (absent_id_changes_nothing "ada" logged_in) as (_ & _ & Ho & Hf).
    + intros u Hu. each_account Hu; vm_compute; discriminate.
    + by split.
Defined.

Lemma updateUser_email_taken_witness :
  ObjectId.cast ada_id_capitals = Some Reference.ada_id
  ∧ outcome (run (userService_updateUser ada_id_capitals own_address) two_accounts)
    = Throw (ApiError 409 "Email already taken")
  ∧ final (run (userService_updateUser ada_id_capitals own_address) two_accounts)
    = two_accounts.
Proof.
  split; [vm_compute; reflexivity|].
  apply (updateUser_email_taken ada_id_capitals own_address two_accounts "a@x.com"
           Reference.ada).
  - vm_compute. reflexivity.
  - reflexivity.
  - discriminate.
  - vm_compute. reflexivity.
  - vm_compute. discriminate.
Defined.

Lemma google_signup_needs_a_name_witness :
  outcome (run (authenticateGoogleUser one_letter) two_accounts) = Throw google_failure
  ∧ users (final (run (authenticateGoogleUser one_letter) two_accounts))
    = users two_accounts.
Proof.
  destruct (google_signup_needs_a_name one_letter two_accounts) as (Ho & Hu & _).
  - vm_compute. reflexivity.
  - vm_compute. reflexivity.
  - vm_compute. lia.
  - by split.
Defined.

Lemma services_keep_accounts_unique_witness :
  accounts_unique two_accounts
  ∧ accounts_unique (final (run (authenticateGoogleUser ada_google) two_accounts))
  ∧ accounts_unique (final (run (userService_createUser dan) two_accounts))
  ∧ accounts_unique (final (run (userService_deleteUser Reference.ada_id) two_accounts)).
Proof.
  assert (Hu : accounts_unique two_accounts).
  { unfold accounts_unique, unique_accounts.
    split; [|split]; apply (bool_decide_unpack _); vm_compute; exact I. }
  destruct (services_keep_accounts_unique two_accounts Hu) as (Hg & Hc & _ & Hd & _).
  split; [exact Hu|]. split; [apply Hg|]. split; [apply Hc | apply Hd].
Defined.




(** The administrator Mallory registered lists the users. *)
Example registered_admin_passes_the_gate :
  let s := final (run (registerUser mallory_request) two_accounts) in
  let controller : Handler := fun _ => ret (Response.mk httpStatus.OK JNull) in
  outcome (get_users_route_with controller
             (list_users (accessToken mallory_tokens)) (start [] s))
  = Ok (Response.mk 200 JNull).
Proof. vm_compute. reflexivity. Qed.

(** After a change of password the old password no longer logs in, the new
    one does, and the refresh token of the earlier login still refreshes. *)
Example sessions_survive_a_password_change :
  let s := final (run (changePassword Reference.ada_id new_password) logged_in) in
  outcome (run (authenticateUser "a@x.com" "secret1") s) = Throw invalid_credentials
  ∧ is_Some (tokens (final (run (authenticateUser "a@x.com" "secret2") s))
               !! refresh_token_at 9000 Reference.ada_id "a@x.com" (Some "user"))
  ∧ outcome (run (refreshAccessToken ada_refresh) s)
    = Ok (access_token_at 9000 Reference.ada_id "a@x.com" (Some "user")).
Proof. cbv zeta. split; [|split]; vm_compute; eauto. Qed.

(** The access token of a deleted account still passes [authenticate]. *)
Example deleted_account_still_authenticates :
  let s := final (run (userService_deleteUser Reference.ada_id) logged_in) in
  let req := get_user ada_access Reference.ada_id in
  users s = [Reference.bob]
  ∧ authenticate req (start [] s)
    = (Ok (next (Request.with_user ada_identity req)), start [] s).
Proof. cbv zeta. split; vm_compute; reflexivity. Qed.

(** [POST /google/mobile] on a token Google does not know, and on none. *)
Example google_mobile_refusals :
  outcome (run (googleMobileAuth (json_body "idToken" "forged")) two_accounts)
  = Ok (Response.mk 401
          (JObject [("success", JBool false);
                    ("message", JString "Invalid Google ID token");
                    ("error", JString "Wrong number of segments in token")]))
  ∧ outcome (run (googleMobileAuth (json_body "other" "x")) two_accounts)
    = Ok (Response.mk 400
            (JObject [("success", JBool false);
                      ("message", JString "Google ID token is required")])).
Proof. split; vm_compute; reflexivity. Qed.


End FurtherScenarios.
